(** * wavs-eas: attestation resolution and polygon containment

    A shallow embedding of
    - [components/js-eas-sdk-demo/eas-client.ts] (class [EASGraphQLClient],
      which the repository holds in two drafts), and
    - the containment module ([testPolygonContainment],
      [validateObservation]),
    together with the properties the specification states about them.

    Asynchronous code is embedded in a small monad of computations that
    either return a value or throw, and that record the calls they make to
    the outside world (the HTTP [fetch] and the payload decoder).
    [console.log] calls are left out: they cannot throw on the values they
    are given and nothing reads what they print. *)

From Stdlib Require Import String List ZArith Bool Lia Ascii.
Import ListNotations.
Open Scope string_scope.
Open Scope Z_scope.
Open Scope list_scope.

(** ** Thrown errors

    One constructor per [throw] site of the client; the argument is the
    value interpolated into the message. *)
Inductive Err : Type :=
| UnsupportedChainId (chainId : Z)
    (* `Unsupported chainId: ${chainId}` *)
| GraphQLError (status : Z)
    (* `GraphQL error: ${response.status}` *)
| NoDataReturned
    (* `No data returned from GraphQL query` *)
| NoAttestationsFound (attestationId : string)
    (* draft 1: `No attestations found for attestationId: ${attestationId}` *)
| NoAttestationsReferencing (attestationId : string)
    (* draft 2: `No attestations found referencing attestationId: ${attestationId}` *)
| NoAttestationFound
    (* draft 2: `No attestation found for attestationId: ${initialData.uid}` *)
| NoLocationUIDFound (id : string)
    (* draft 2: `No locationUID found for attestation ${attestation.id}` *)
| FetchRejected (reason : string)
    (* the promise of fetch() rejects *)
| JsonRejected
    (* the promise of response.json() rejects, or its value cannot be destructured *)
| DecodeFailure (reason : string)
    (* thrown inside data-utils *)
| GeometryFailure (reason : string)
    (* thrown inside @turf *)
| TypeError.
    (* property access on null or undefined *)

Inductive Result (A : Type) : Type :=
| Ok (a : A)
| Thrown (e : Err).
Arguments Ok {A} a.
Arguments Thrown {A} e.

(** ** Data model *)

(** A raw record of the GraphQL response (fields id, schemaId, refUID,
    decodedDataJson). *)
Record RawAttestation : Type := mkRaw {
  raw_id : string;
  raw_schemaId : string;
  raw_refUID : option string;
  decodedDataJson : option string
}.

(** [AttestationData] of ./types. *)
Record AttestationData : Type := mkAttestationData {
  uid : string;
  schemaId : string;
  refUID : option string;
  data : option string
}.

(** The object [extractDecodedDataFromRaw] returns; the client reads its
    [locationUID] property only ([None]: the property is undefined or null). *)
Record DecodedPayload : Type := mkDecoded {
  locationUID : option string
}.

(** The [data] member of a GraphQL response body.  The entries of
    [attestations] are attestation records, as the schema of the store has
    them; a list with a null entry, on which [.map] of the conversion would
    throw a TypeError, is not a value of this type. *)
Record GraphQLData : Type := mkData {
  attestation : option RawAttestation;
  attestations : option (list RawAttestation)
}.

(** The two query documents of the client, by operation name. *)
Inductive Query : Type :=
| GetAttestation          (* attestation(id = $uid) and attestations(refUID = $uid) *)
| GetLocationAttestation. (* attestation(id = $uid) *)

(** What is POSTed: body [{ query, variables: { uid } }] to [endpoint]. *)
Record Request : Type := mkRequest {
  req_endpoint : string;
  req_query : Query;
  req_uid : string
}.

(** What [response.json()] gives: it rejects, or yields a body whose [data]
    member is an object or is missing ([None]: undefined or null). *)
Inductive JsonOutcome : Type :=
| JsonRejects
| JsonBody (body_data : option GraphQLData).

Record HttpResponse : Type := mkResponse {
  ok : bool;
  status : Z;
  json : JsonOutcome
}.

Inductive FetchOutcome : Type :=
| Rejects (reason : string)
| Resolves (response : HttpResponse).

(** The store. One call of [fetchAttestations] sends at most two requests
    and they differ in their query, so a function of the request stands for
    any sequence of responses. *)
Definition Store : Type := Request -> FetchOutcome.

(** The decoder of ./data-utils, which is called on [decodedDataJson]. *)
Definition Decoder : Type := option string -> Result DecodedPayload.

(** ** Computations *)

Inductive Event : Type :=
| EvFetch (r : Request)
| EvDecode (raw : option string).

Definition Trace : Type := list Event.

Definition IO (A : Type) : Type := (Result A * Trace)%type.

Definition ret {A} (a : A) : IO A := (Ok a, []).

Definition throw {A} (e : Err) : IO A := (Thrown e, []).

Definition bind {A B} (m : IO A) (k : A -> IO B) : IO B :=
  match m with
  | (Ok a, t) => let (r, t') := k a in (r, t ++ t')
  | (Thrown e, t) => (Thrown e, t)
  end.

(** [try { m } catch (error) { h error }] *)
Definition tryCatch {A} (m : IO A) (h : Err -> IO A) : IO A :=
  match m with
  | (Ok a, t) => (Ok a, t)
  | (Thrown e, t) => let (r, t') := h e in (r, t ++ t')
  end.

Notation "x <- m ;; k" := (bind m (fun x => k))
  (at level 61, m at next level, right associativity).

Definition result {A} (m : IO A) : Result A := fst m.
Definition trace {A} (m : IO A) : Trace := snd m.

Definition is_fetch (ev : Event) : bool :=
  match ev with EvFetch _ => true | EvDecode _ => false end.

(** The decoder calls of a trace. *)
Definition decodes (t : Trace) : Trace := filter (fun ev => negb (is_fetch ev)) t.

(** JavaScript truthiness of a value that is a string, null or undefined:
    [Some s] when the value is the non-empty string [s], [None] when it is
    falsy (null, undefined or the empty string). *)
Definition truthy (v : option string) : option string :=
  match v with
  | Some s => if (s =? EmptyString)%string then None else Some s
  | None => None
  end.

(** ** The client, parts common to both drafts

    [getEndpoint], [executeGraphQLQuery], [fetchInitialAttestations] and
    [fetchLocationAttestation] have the same text in both drafts and are
    embedded once.  [fetchLocationData] and [fetchAttestations] have the
    same text too, but call what differs (the conversion function, which has
    two names and one body, and [fetchMainAttestations]), so each draft has
    its own. *)

Definition convertRawAttestationToData (rawAttestation : RawAttestation) : AttestationData :=
  {| uid := raw_id rawAttestation;
     schemaId := raw_schemaId rawAttestation;
     refUID := raw_refUID rawAttestation;
     data := decodedDataJson rawAttestation |}.

Definition convertGraphQLResponseToAttestationData (rawAttestation : RawAttestation) : AttestationData :=
  {| uid := raw_id rawAttestation;
     schemaId := raw_schemaId rawAttestation;
     refUID := raw_refUID rawAttestation;
     data := decodedDataJson rawAttestation |}.

(** [chainId] is an integer chain identifier; [switch] compares with [===]. *)
Definition getEndpoint (chainId : Z) : option string :=
  if chainId =? 1 then Some "https://mainnet.easscan.org/graphql"
  else if chainId =? 10 then Some "https://optimism.easscan.org/graphql"
  else if chainId =? 11155111 then Some "https://sepolia.easscan.org/graphql"
  else None.

(** What [fetchMainAttestations] returns. *)
Record MainAttestations : Type := mkMain {
  main_attestations : list AttestationData;
  main_locationUID : option string
}.

(** What [fetchAttestations] returns. *)
Record Resolved : Type := mkResolved {
  res_attestations : list AttestationData;
  locationAttestation : option AttestationData
}.

Section Transport.

Variable store : Store.

(** [await fetch(endpoint, { method: "POST", ..., body })] *)
Definition fetch (endpoint : string) (query : Query) (variables : string) : IO HttpResponse :=
  let request := mkRequest endpoint query variables in
  match store request with
  | Rejects reason => (Thrown (FetchRejected reason), [EvFetch request])
  | Resolves response => (Ok response, [EvFetch request])
  end.

(** [const { data } = await response.json()] *)
Definition response_json (response : HttpResponse) : IO (option GraphQLData) :=
  match json response with
  | JsonRejects => throw JsonRejected
  | JsonBody d => ret d
  end.

Definition executeGraphQLQuery (endpoint : string) (query : Query)
    (variables : string) (throwOnError : bool) : IO (option GraphQLData) :=
  response <- fetch endpoint query variables ;;
  if negb (ok response) then
    if throwOnError then throw (GraphQLError (status response))
    else ret None
  else
    data <- response_json response ;;
    match data with
    | None => if throwOnError then throw NoDataReturned else ret data
    | Some _ => ret data
    end.

Definition fetchInitialAttestations (endpoint attestationId : string) : IO (option GraphQLData) :=
  executeGraphQLQuery endpoint GetAttestation attestationId true.

(** [return data?.attestation || null] *)
Definition fetchLocationAttestation (endpoint locationUID : string) : IO (option RawAttestation) :=
  data <- executeGraphQLQuery endpoint GetLocationAttestation locationUID false ;;
  match data with
  | None => ret None
  | Some d => ret (attestation d)
  end.

End Transport.

(** ** Draft 1 *)
Module Draft1.
Section Client.

Variable extractDecodedDataFromRaw : Decoder.
Variable store : Store.

(** A call of [extractDecodedDataFromRaw], recorded in the trace. *)
Definition decode (raw : option string) : IO DecodedPayload :=
  (extractDecodedDataFromRaw raw, [EvDecode raw]).

Definition fetchLocationData (endpoint : string) (locationUID : option string)
    : IO (option AttestationData) :=
  match truthy locationUID with
  | None => ret None                                   (* !locationUID *)
  | Some locationUID =>
      locationAttestation <- fetchLocationAttestation store endpoint locationUID ;;
      match locationAttestation with
      | Some la => ret (Some (convertRawAttestationToData la))
      | None => ret None
      end
  end.

Definition fetchMainAttestations (endpoint attestationId : string) : IO MainAttestations :=
  initialData <- fetchInitialAttestations store endpoint attestationId ;;
  match initialData with
  | None => throw TypeError          (* a member of null; the query has thrown before *)
  | Some initialData =>
      locationUID <-
        match attestation initialData with
        | Some original =>
            tryCatch
              (decodedData <- decode (decodedDataJson original) ;;
               ret (locationUID decodedData))
              (fun _ => ret None)
        | None => ret None
        end ;;
      let allAttestations :=
        match attestations initialData with
        | Some refs => if (0 <? length refs)%nat then [] ++ refs else []
        | None => []
        end in
      if (length allAttestations =? 0)%nat then
        throw (NoAttestationsFound attestationId)
      else
        ret {| main_attestations := map convertRawAttestationToData allAttestations;
               main_locationUID := locationUID |}
  end.

Definition fetchAttestations (chainId : Z) (attestationId : string) : IO Resolved :=
  match truthy (getEndpoint chainId) with
  | None => throw (UnsupportedChainId chainId)         (* !endpoint *)
  | Some endpoint =>
      main <- fetchMainAttestations endpoint attestationId ;;
      locationAttestation <- fetchLocationData endpoint (main_locationUID main) ;;
      ret {| res_attestations := main_attestations main;
             locationAttestation := locationAttestation |}
  end.

End Client.
End Draft1.

(** ** Draft 2 *)
Module Draft2.
Section Client.

Variable extractDecodedDataFromRaw : Decoder.
Variable store : Store.

(** A call of [extractDecodedDataFromRaw], recorded in the trace. *)
Definition decode (raw : option string) : IO DecodedPayload :=
  (extractDecodedDataFromRaw raw, [EvDecode raw]).

Definition fetchLocationData (endpoint : string) (locationUID : option string)
    : IO (option AttestationData) :=
  match truthy locationUID with
  | None => ret None                                   (* !locationUID *)
  | Some locationUID =>
      locationAttestation <- fetchLocationAttestation store endpoint locationUID ;;
      match locationAttestation with
      | Some la => ret (Some (convertGraphQLResponseToAttestationData la))
      | None => ret None
      end
  end.

Definition extractLocationUID (initialData : GraphQLData) : IO (option string) :=
  match attestation initialData with
  | None => throw NoAttestationFound
  | Some original =>
      caught <-
        match truthy (decodedDataJson original) with
        | Some _ =>
            tryCatch
              (decodedData <- decode (decodedDataJson original) ;;
               (* const locationUID = decodedData.locationUID || null *)
               ret (Some (truthy (locationUID decodedData))))
              (fun _ => ret None)
        | None => ret None
        end ;;
      match caught with
      | Some locationUID => ret locationUID          (* return inside try *)
      | None => throw (NoLocationUIDFound (raw_id original))
      end
  end.

Definition fetchMainAttestations (endpoint attestationId : string) : IO MainAttestations :=
  initialData <- fetchInitialAttestations store endpoint attestationId ;;
  match initialData with
  | None => throw TypeError          (* a member of null; the query has thrown before *)
  | Some initialData =>
      locationUID <- extractLocationUID initialData ;;
      let referencingAttestations :=
        match attestations initialData with
        | Some refs => refs
        | None => []
        end in
      if (0 <? length referencingAttestations)%nat then
        ret {| main_attestations :=
                 map convertGraphQLResponseToAttestationData referencingAttestations;
               main_locationUID := locationUID |}
      else
        throw (NoAttestationsReferencing attestationId)
  end.

Definition fetchAttestations (chainId : Z) (attestationId : string) : IO Resolved :=
  match truthy (getEndpoint chainId) with
  | None => throw (UnsupportedChainId chainId)         (* !endpoint *)
  | Some endpoint =>
      main <- fetchMainAttestations endpoint attestationId ;;
      locationAttestation <- fetchLocationData endpoint (main_locationUID main) ;;
      ret {| res_attestations := main_attestations main;
             locationAttestation := locationAttestation |}
  end.

End Client.
End Draft2.

(** ** Polygon containment

    [extractLocationFromAttestation] (./data-utils) and the geometry
    functions [polygon], [point] and [booleanContains] (@turf) are not part
    of this module: they are parameters.  The first three can throw;
    [booleanContains] of a polygon feature and a point feature returns a
    boolean. *)

Definition rbind {A B} (m : Result A) (k : A -> Result B) : Result B :=
  match m with
  | Ok a => k a
  | Thrown e => Thrown e
  end.

Notation "'let*' x ':=' m 'in' k" := (rbind m (fun x => k))
  (at level 10, x name, m at level 100, k at level 200).

(** [xs.map((x, index) => f(x, index))] with a callback that can throw: the
    elements are visited in order, [index] counts from [start], and the
    first throw leaves the whole call. *)
Fixpoint array_map {A B} (f : A -> nat -> Result B) (start : nat) (xs : list A)
    : Result (list B) :=
  match xs with
  | [] => Ok []
  | x :: rest =>
      let* y := f x start in
      let* ys := array_map f (S start) rest in
      Ok (y :: ys)
  end.

Section Containment.

Variables LocationData Coordinates PolygonFeature PointFeature : Type.
Variable coordinates : LocationData -> Coordinates.
Variable extractLocationFromAttestation : AttestationData -> Result LocationData.
Variable polygon : Coordinates -> Result PolygonFeature.
Variable point : Coordinates -> Result PointFeature.
Variable booleanContains : PolygonFeature -> PointFeature -> bool.

(** [ContainmentResult] of ./types. *)
Record ContainmentResult : Type := mkContainmentResult {
  attestationId : string;
  location : LocationData;
  isContainedInPolygon : bool
}.

Definition validateObservation (index : nat) (attestation : AttestationData)
    (turfPolygon : PolygonFeature) : Result ContainmentResult :=
  let* locationData := extractLocationFromAttestation attestation in
  let* turfPoint := point (coordinates locationData) in
  let isContained := booleanContains turfPolygon turfPoint in
  Ok {| attestationId := uid attestation;
        location := locationData;
        isContainedInPolygon := isContained |}.

Definition testPolygonContainment (attestations : list AttestationData)
    (locationAttestation : AttestationData) : Result (list ContainmentResult) :=
  let* polygonData := extractLocationFromAttestation locationAttestation in
  let* turfPolygon := polygon (coordinates polygonData) in
  array_map (fun attestation index => validateObservation index attestation turfPolygon)
            0%nat attestations.

(** The payload of the boundary decodes to a polygon. *)
Definition decodable_polygon (a : AttestationData) : Prop :=
  exists polygonData turfPolygon,
    extractLocationFromAttestation a = Ok polygonData
    /\ polygon (coordinates polygonData) = Ok turfPolygon.

(** The payload of an observation decodes to a point. *)
Definition decodable_point (a : AttestationData) : Prop :=
  exists locationData turfPoint,
    extractLocationFromAttestation a = Ok locationData
    /\ point (coordinates locationData) = Ok turfPoint.

(** The payload of an observation does not decode to a point: the
    extraction throws [e], or [point] throws [e] on what was extracted. *)
Definition undecodable_point (a : AttestationData) (e : Err) : Prop :=
  extractLocationFromAttestation a = Thrown e
  \/ exists locationData,
       extractLocationFromAttestation a = Ok locationData
       /\ point (coordinates locationData) = Thrown e.

End Containment.

Arguments attestationId {LocationData} _.
Arguments location {LocationData} _.
Arguments isContainedInPolygon {LocationData} _.
Arguments mkContainmentResult {LocationData} _ _ _.
Arguments validateObservation {LocationData Coordinates PolygonFeature PointFeature}.
Arguments testPolygonContainment {LocationData Coordinates PolygonFeature PointFeature}.
Arguments decodable_polygon {LocationData Coordinates PolygonFeature}.
Arguments decodable_point {LocationData Coordinates PointFeature}.
Arguments undecodable_point {LocationData Coordinates PointFeature}.

(** ** The error taxonomy of the specification

    [errorClass] follows the specification's words (sections 4.1, 6 and 7),
    not the code: it names the class each thrown error belongs to. *)
Inductive ErrorClass : Type :=
| UnsupportedChain
| StoreUnreachable
| RootAttestationNotFound
| LocationReferenceMissing
| NoReferencingAttestations
| PayloadDecodeError
| Unclassified.

Definition errorClass (e : Err) : ErrorClass :=
  match e with
  | UnsupportedChainId _ => UnsupportedChain
  | GraphQLError _ => StoreUnreachable
  | FetchRejected _ => StoreUnreachable
  | NoDataReturned => RootAttestationNotFound
  | NoAttestationFound => RootAttestationNotFound
  | NoLocationUIDFound _ => LocationReferenceMissing
  | NoAttestationsFound _ => NoReferencingAttestations
  | NoAttestationsReferencing _ => NoReferencingAttestations
  | DecodeFailure _ => PayloadDecodeError
  | JsonRejected => Unclassified
  | GeometryFailure _ => Unclassified
  | TypeError => Unclassified
  end.

(** The chain identifiers of the endpoint table. *)
Definition supported (chainId : Z) : Prop :=
  chainId = 1 \/ chainId = 10 \/ chainId = 11155111.

(** A well-formed HTTPS URL, as far as the endpoint table needs it: scheme
    [https://], then a non-empty host of letters, digits, dots and hyphens
    that neither starts nor ends with a dot or hyphen, then nothing or a
    path of unreserved characters and slashes. *)
Definition is_alnum (c : ascii) : bool :=
  let n := nat_of_ascii c in
  ((48 <=? n) && (n <=? 57) || (65 <=? n) && (n <=? 90) || (97 <=? n) && (n <=? 122))%nat.

Definition is_host_char (c : ascii) : bool :=
  is_alnum c || Ascii.eqb c "." || Ascii.eqb c "-".

Definition is_path_char (c : ascii) : bool :=
  is_host_char c || Ascii.eqb c "/" || Ascii.eqb c "_" || Ascii.eqb c "~".

Fixpoint split_host (s : string) : string * string :=
  match s with
  | EmptyString => (EmptyString, EmptyString)
  | String c rest =>
      if Ascii.eqb c "/" then (EmptyString, s)
      else let (h, p) := split_host rest in (String c h, p)
  end.

Definition well_formed_host (h : string) : bool :=
  match list_ascii_of_string h with
  | [] => false
  | first :: _ =>
      forallb is_host_char (list_ascii_of_string h)
      && is_alnum first
      && is_alnum (last (list_ascii_of_string h) first)
  end.

Definition well_formed_https (url : string) : bool :=
  String.prefix "https://" url
  && let (host, path) := split_host (substring 8 (String.length url - 8) url) in
     well_formed_host host && forallb is_path_char (list_ascii_of_string path).

(** ** Cases of the store's answers *)

(** What the mandatory query throws, by case on the store's answer. *)
Definition initial_failure (o : FetchOutcome) : option Err :=
  match o with
  | Rejects reason => Some (FetchRejected reason)
  | Resolves r =>
      if ok r then
        match json r with
        | JsonRejects => Some JsonRejected
        | JsonBody None => Some NoDataReturned
        | JsonBody (Some _) => None
        end
      else Some (GraphQLError (status r))
  end.

(** The lenient lookup finds nothing: the status is not a success, or the
    body has no [data], or [data] has no [attestation]. *)
Definition not_found (o : FetchOutcome) : bool :=
  match o with
  | Rejects _ => false
  | Resolves r =>
      if ok r then
        match json r with
        | JsonRejects => false
        | JsonBody None => true
        | JsonBody (Some d) =>
            match attestation d with Some _ => false | None => true end
        end
      else true
  end.

(** ** What each draft extracts from the root

    Closed forms of the extraction step, used to state what the drafts do on
    a given answer; [Draft1_resolve] and [Draft2_resolve] below prove that
    the embedded code computes them. *)

(** Draft 1: the [locationUID] left in the variable after the [try]. *)
Definition draft1_locationUID (dec : Decoder) (d : GraphQLData) : option string :=
  match attestation d with
  | Some root =>
      match dec (decodedDataJson root) with
      | Ok payload => locationUID payload
      | Thrown _ => None
      end
  | None => None
  end.

(** Draft 2: what [extractLocationUID] returns or throws. *)
Definition draft2_locationUID (dec : Decoder) (d : GraphQLData) : Result (option string) :=
  match attestation d with
  | None => Thrown NoAttestationFound
  | Some root =>
      match truthy (decodedDataJson root) with
      | None => Thrown (NoLocationUIDFound (raw_id root))
      | Some _ =>
          match dec (decodedDataJson root) with
          | Ok payload => Ok (truthy (locationUID payload))
          | Thrown _ => Thrown (NoLocationUIDFound (raw_id root))
          end
      end
  end.

(** The list the drafts read from [data.attestations]. *)
Definition referencing (d : GraphQLData) : list RawAttestation :=
  match attestations d with
  | Some refs => refs
  | None => []
  end.

(** The root's payload lacks a location reference: decoding throws, or the
    decoded payload has no (non-empty) [locationUID]. *)
Definition lacks_location_reference (dec : Decoder) (root : RawAttestation) : Prop :=
  match dec (decodedDataJson root) with
  | Ok payload => truthy (locationUID payload) = None
  | Thrown _ => True
  end.

(** Two outcomes of [fetchAttestations] are equivalent: the same returned
    value, or errors of the same class. *)
Definition equivalent (a b : Result Resolved) : Prop :=
  match a, b with
  | Ok x, Ok y => x = y
  | Thrown e1, Thrown e2 => errorClass e1 = errorClass e2
  | _, _ => False
  end.

(** The inputs on which the two drafts behave alike: the chain is not
    supported, or the mandatory query fails, or the root is there with a
    non-empty payload that decodes. *)
Definition drafts_agree_on (dec : Decoder) (store : Store) (chainId : Z)
    (attestationId : string) : bool :=
  match truthy (getEndpoint chainId) with
  | None => true
  | Some endpoint =>
      match store (mkRequest endpoint GetAttestation attestationId) with
      | Rejects _ => true
      | Resolves r =>
          if ok r then
            match json r with
            | JsonRejects => true
            | JsonBody None => true
            | JsonBody (Some d) =>
                match attestation d with
                | None => false
                | Some root =>
                    match truthy (decodedDataJson root), dec (decodedDataJson root) with
                    | Some _, Ok _ => true
                    | _, _ => false
                    end
                end
            end
          else true
      end
  end.

(** ** Calls made and errors thrown

    Closed forms used to state which calls a run makes and which errors it
    can end with. *)

(** The requests of a trace. *)
Definition fetches (t : Trace) : Trace := filter is_fetch t.

(** The decoder calls of draft 1 on a successful answer: one, on the root's
    [decodedDataJson] whatever it is, when the root is there. *)
Definition draft1_decodes (d : GraphQLData) : Trace :=
  match attestation d with
  | Some root => [EvDecode (decodedDataJson root)]
  | None => []
  end.

(** The decoder calls of draft 2 on a successful answer: one, when the root
    is there and its [decodedDataJson] is a non-empty string. *)
Definition draft2_decodes (d : GraphQLData) : Trace :=
  match attestation d with
  | Some root =>
      match truthy (decodedDataJson root) with
      | Some _ => [EvDecode (decodedDataJson root)]
      | None => []
      end
  | None => []
  end.

(** What the lenient lookup still throws, by case on the store's answer: a
    rejected [fetch], or a success status whose body cannot be read. *)
Definition lookup_failure (o : FetchOutcome) : option Err :=
  match o with
  | Rejects reason => Some (FetchRejected reason)
  | Resolves r =>
      if ok r then
        match json r with
        | JsonRejects => Some JsonRejected
        | JsonBody _ => None
        end
      else None
  end.

(** The record the lenient lookup finds, if any. *)
Definition lookup_record (o : FetchOutcome) : option RawAttestation :=
  match o with
  | Rejects _ => None
  | Resolves r =>
      if ok r then
        match json r with
        | JsonBody (Some d) => attestation d
        | _ => None
        end
      else None
  end.

(** The answer honours the combined query: every listed attestation
    references [attestationId], and the root, if it is there, does not (it
    does not reference itself). *)
Definition honours_query (attestationId : string) (d : GraphQLData) : Prop :=
  Forall (fun a => raw_refUID a = Some attestationId) (referencing d)
  /\ forall root, attestation d = Some root -> raw_refUID root <> Some attestationId.


(** The calls of the first step of a run: the combined request, then at
    most one decoder call. *)
Definition first_step_calls (endpoint attestationId : string) (t : Trace) : Prop :=
  exists decoded,
    t = EvFetch (mkRequest endpoint GetAttestation attestationId) :: decoded
    /\ fetches decoded = [] /\ (length decoded <= 1)%nat.

(** The calls of a whole run on a supported chain: the combined request, at
    most one decoder call, then at most one lookup request, which goes to
    the same endpoint and asks for a non-empty uid. *)
Definition run_calls (endpoint attestationId : string) (t : Trace) : Prop :=
  exists decoded lookup,
    t = EvFetch (mkRequest endpoint GetAttestation attestationId) :: decoded ++ lookup
    /\ fetches decoded = [] /\ (length decoded <= 1)%nat
    /\ (lookup = []
        \/ exists u, u <> EmptyString
                     /\ lookup = [EvFetch (mkRequest endpoint GetLocationAttestation u)]).

(** ** A concrete run: the scenario of the specification

    Root [0xAAA] names the boundary [0xLOC] and is referenced by [0xBBB]
    and [0xCCC].  The collaborators are instantiated with small executable
    stand-ins: a decoder for payloads of the form [locationUID=<uid>], a
    table of geometries, and an even-odd point-in-polygon test on integer
    coordinates. *)
Module Scenario.

Definition endpoint : string := "https://mainnet.easscan.org/graphql".

(** Payload decoder: [locationUID=<uid>] decodes to that uid, [{}] to a
    payload without the field, anything else throws. *)
Definition decoder : Decoder := fun raw =>
  match raw with
  | Some s =>
      if String.prefix "locationUID=" s
      then Ok {| locationUID := Some (substring 12 (String.length s - 12) s) |}
      else if (s =? "{}")%string then Ok {| locationUID := None |}
      else Thrown (DecodeFailure "malformed payload")
  | None => Thrown (DecodeFailure "no payload")
  end.

Definition root : RawAttestation :=
  mkRaw "0xAAA" "0xSCHEMA" None (Some "locationUID=0xLOC").
Definition root_empty_payload : RawAttestation :=
  mkRaw "0xAAA" "0xSCHEMA" None (Some "{}").
Definition root_bad_payload : RawAttestation :=
  mkRaw "0xAAA" "0xSCHEMA" None (Some "not a payload").
Definition bbb : RawAttestation :=
  mkRaw "0xBBB" "0xSCHEMA" (Some "0xAAA") (Some "point 5 5").
Definition ccc : RawAttestation :=
  mkRaw "0xCCC" "0xSCHEMA" (Some "0xAAA") (Some "point 50 50").
Definition loc : RawAttestation :=
  mkRaw "0xLOC" "0xSCHEMA" None (Some "square 0 10").
(** An observation whose payload holds no geometry. *)
Definition ddd : RawAttestation :=
  mkRaw "0xDDD" "0xSCHEMA" (Some "0xAAA") (Some "no geometry here").

Definition ok_response (d : GraphQLData) : FetchOutcome :=
  Resolves {| ok := true; status := 200; json := JsonBody (Some d) |}.

(** A store that answers the combined query for [0xAAA] with [first] and
    the lookup of [0xLOC] with [second], and 404 otherwise. *)
Definition store_of (first second : FetchOutcome) : Store := fun request =>
  match req_query request with
  | GetAttestation =>
      if (req_uid request =? "0xAAA")%string then first
      else Resolves {| ok := false; status := 404; json := JsonRejects |}
  | GetLocationAttestation =>
      if (req_uid request =? "0xLOC")%string then second
      else Resolves {| ok := false; status := 404; json := JsonRejects |}
  end.

Definition found_loc : FetchOutcome := ok_response (mkData (Some loc) None).
Definition missing_loc : FetchOutcome := ok_response (mkData None None).

(** The store of the scenario. *)
Definition store : Store :=
  store_of (ok_response (mkData (Some root) (Some [bbb; ccc]))) found_loc.

(** Geometry stand-ins. *)
Inductive Geometry : Type :=
| PointCoordinates (x y : Z)
| PolygonCoordinates (rings : list (list (Z * Z))).

Definition extractLocation : AttestationData -> Result Geometry := fun a =>
  match data a with
  | Some "point 5 5" => Ok (PointCoordinates 5 5)
  | Some "point 50 50" => Ok (PointCoordinates 50 50)
  | Some "square 0 10" =>
      Ok (PolygonCoordinates [[(0, 0); (0, 10); (10, 10); (10, 0); (0, 0)]])
  | _ => Thrown (DecodeFailure "no location")
  end.

Definition polygon (c : Geometry) : Result (list (Z * Z)) :=
  match c with
  | PolygonCoordinates [ring] =>
      match ring with
      | first :: _ :: _ :: _ :: _ =>
          if ((fst first =? fst (last ring first))
              && (snd first =? snd (last ring first)))%bool
          then Ok ring
          else Thrown (GeometryFailure "ring is not closed")
      | _ => Thrown (GeometryFailure "ring has fewer than 4 positions")
      end
  | _ => Thrown (GeometryFailure "not a polygon")
  end.

Definition point (c : Geometry) : Result (Z * Z) :=
  match c with
  | PointCoordinates x y => Ok (x, y)
  | _ => Thrown (GeometryFailure "not a point")
  end.

(** Does the edge [a]-[b] cross the ray that leaves [p] to the right? *)
Definition crosses (p a b : Z * Z) : bool :=
  let '(px, py) := p in
  let '(ax, ay) := a in
  let '(bx, by') := b in
  (negb (Bool.eqb (py <? ay) (py <? by')))
  && (if ay <? by'
      then (px - ax) * (by' - ay) <? (bx - ax) * (py - ay)
      else (bx - ax) * (py - ay) <? (px - ax) * (by' - ay)).

Fixpoint crossings (p : Z * Z) (ring : list (Z * Z)) : nat :=
  match ring with
  | a :: (b :: _) as rest =>
      ((if crosses p a b then 1 else 0) + crossings p rest)%nat
  | _ => 0%nat
  end.

Definition contains (ring : list (Z * Z)) (p : Z * Z) : bool :=
  Nat.odd (crossings p ring).

Definition coordinates (g : Geometry) : Geometry := g.

Definition evaluate :=
  testPolygonContainment coordinates extractLocation polygon point contains.

End Scenario.

(** * Properties *)

Example scenario_resolve_draft1 :
  Draft1.fetchAttestations Scenario.decoder Scenario.store 1 "0xAAA"
  = (Ok {| res_attestations := map convertRawAttestationToData [Scenario.bbb; Scenario.ccc];
           locationAttestation := Some (convertRawAttestationToData Scenario.loc) |},
     [EvFetch (mkRequest Scenario.endpoint GetAttestation "0xAAA");
      EvDecode (Some "locationUID=0xLOC");
      EvFetch (mkRequest Scenario.endpoint GetLocationAttestation "0xLOC")]).
Proof. reflexivity. Qed.

Example scenario_resolve_draft2 :
  Draft2.fetchAttestations Scenario.decoder Scenario.store 1 "0xAAA"
  = Draft1.fetchAttestations Scenario.decoder Scenario.store 1 "0xAAA".
Proof. reflexivity. Qed.

Example scenario_evaluate :
  Scenario.evaluate (map convertRawAttestationToData [Scenario.bbb; Scenario.ccc])
                    (convertRawAttestationToData Scenario.loc)
  = Ok [ mkContainmentResult "0xBBB" (Scenario.PointCoordinates 5 5) true;
         mkContainmentResult "0xCCC" (Scenario.PointCoordinates 50 50) false ].
Proof. reflexivity. Qed.

(** ** Reasoning about computations *)

Lemma bind_ok {A B} (m : IO A) (k : A -> IO B) (a : A) (t : Trace) :
  m = (Ok a, t) -> bind m k = (fst (k a), t ++ snd (k a)).
Proof. intros ->. unfold bind. destruct (k a); reflexivity. Qed.

Lemma bind_ok_inv {A B} (m : IO A) (k : A -> IO B) (b : B) (t : Trace) :
  bind m k = (Ok b, t) ->
  exists a t1 t2, m = (Ok a, t1) /\ k a = (Ok b, t2) /\ t = t1 ++ t2.
Proof.
  unfold bind. destruct m as [[a|e] t1]; [|discriminate].
  destruct (k a) as [r t2] eqn:Hk. intros H. inversion H; subst.
  exists a, t1, t2. auto.
Qed.

Lemma truthy_idem (v : option string) : truthy (truthy v) = truthy v.
Proof.
  destruct v as [s|]; simpl; auto.
  destruct (s =? EmptyString)%string eqn:E; simpl; auto. now rewrite E.
Qed.

Lemma convert_same (r : RawAttestation) :
  convertGraphQLResponseToAttestationData r = convertRawAttestationToData r.
Proof. reflexivity. Qed.

Lemma convert_injective (a b : RawAttestation) :
  convertRawAttestationToData a = convertRawAttestationToData b -> a = b.
Proof.
  destruct a, b. unfold convertRawAttestationToData. simpl.
  intros H. inversion H. reflexivity.
Qed.

Lemma getEndpoint_supported (chainId : Z) (url : string) :
  getEndpoint chainId = Some url -> supported chainId.
Proof.
  unfold getEndpoint, supported.
  destruct (Z.eqb_spec chainId 1); auto.
  destruct (Z.eqb_spec chainId 10); auto.
  destruct (Z.eqb_spec chainId 11155111); auto.
  discriminate.
Qed.

Lemma getEndpoint_unsupported (chainId : Z) :
  ~ supported chainId -> getEndpoint chainId = None.
Proof.
  intros H. destruct (getEndpoint chainId) eqn:E; auto.
  apply getEndpoint_supported in E. contradiction.
Qed.

(** The mandatory query returns exactly when the store answers with a
    success status and a body that has [data]. *)
Lemma fetchInitialAttestations_ok (store : Store) (endpoint attestationId : string)
    (r : HttpResponse) (d : GraphQLData) :
  store (mkRequest endpoint GetAttestation attestationId) = Resolves r ->
  ok r = true -> json r = JsonBody (Some d) ->
  fetchInitialAttestations store endpoint attestationId
  = (Ok (Some d), [EvFetch (mkRequest endpoint GetAttestation attestationId)]).
Proof.
  intros Hs Hok Hj.
  unfold fetchInitialAttestations, executeGraphQLQuery, fetch, response_json.
  rewrite Hs. simpl. rewrite Hok, Hj. reflexivity.
Qed.

Lemma fetchInitialAttestations_ok_inv (store : Store) (endpoint attestationId : string)
    (o : option GraphQLData) (t : Trace) :
  fetchInitialAttestations store endpoint attestationId = (Ok o, t) ->
  exists r d,
    store (mkRequest endpoint GetAttestation attestationId) = Resolves r
    /\ ok r = true /\ json r = JsonBody (Some d) /\ o = Some d
    /\ t = [EvFetch (mkRequest endpoint GetAttestation attestationId)].
Proof.
  unfold fetchInitialAttestations, executeGraphQLQuery, fetch, response_json.
  destruct (store _) as [reason|r] eqn:Hs; simpl; [discriminate|].
  destruct (ok r) eqn:Hok; simpl; [|discriminate].
  destruct (json r) as [|[d|]] eqn:Hj; simpl; try discriminate.
  intros H; inversion H; subst. exists r, d. auto.
Qed.

Lemma fetchInitialAttestations_thrown (store : Store) (endpoint attestationId : string)
    (e : Err) :
  initial_failure (store (mkRequest endpoint GetAttestation attestationId)) = Some e ->
  fetchInitialAttestations store endpoint attestationId
  = (Thrown e, [EvFetch (mkRequest endpoint GetAttestation attestationId)]).
Proof.
  unfold initial_failure, fetchInitialAttestations, executeGraphQLQuery, fetch, response_json.
  destruct (store _) as [reason|r]; simpl.
  - intros H; inversion H; reflexivity.
  - destruct (ok r); simpl.
    + destruct (json r) as [|[d|]]; simpl; intros H; inversion H; reflexivity.
    + intros H; inversion H; reflexivity.
Qed.

Lemma fetchLocationAttestation_not_found (store : Store) (endpoint locationUID : string) :
  not_found (store (mkRequest endpoint GetLocationAttestation locationUID)) = true ->
  fetchLocationAttestation store endpoint locationUID
  = (Ok None, [EvFetch (mkRequest endpoint GetLocationAttestation locationUID)]).
Proof.
  unfold not_found, fetchLocationAttestation, executeGraphQLQuery, fetch, response_json.
  destruct (store _) as [reason|r]; simpl; [discriminate|].
  destruct (ok r); simpl; [|reflexivity].
  destruct (json r) as [|[d|]]; simpl; try discriminate; try reflexivity.
  destruct (attestation d); [discriminate|reflexivity].
Qed.

Lemma fetchLocationAttestation_trace (store : Store) (endpoint locationUID : string) :
  trace (fetchLocationAttestation store endpoint locationUID)
  = [EvFetch (mkRequest endpoint GetLocationAttestation locationUID)].
Proof.
  unfold fetchLocationAttestation, executeGraphQLQuery, fetch, response_json.
  destruct (store _) as [reason|r]; simpl; [reflexivity|].
  destruct (ok r); simpl; [|reflexivity].
  destruct (json r) as [|[d|]]; reflexivity.
Qed.

(** ** The endpoint table *)

(** C9: [getEndpoint] is a total function of [chainId]; on 1, 10 and
    11155111 it returns a well-formed HTTPS URL (so not null), and on every
    other chain identifier it returns null. *)
Theorem getEndpoint_total_https (chainId : Z) :
  (supported chainId <->
   exists url, getEndpoint chainId = Some url /\ well_formed_https url = true)
  /\ (~ supported chainId <-> getEndpoint chainId = None).
Proof.
  split; split.
  - intros [-> | [-> | ->]]; eexists; split; reflexivity.
  - intros [url [H _]]. eapply getEndpoint_supported; eauto.
  - apply getEndpoint_unsupported.
  - intros H Hs. destruct Hs as [-> | [-> | ->]]; discriminate.
Qed.

(** C8: on a chain identifier other than 1, 10 and 11155111,
    [fetchAttestations] of either draft throws the unsupported-chain error
    and has sent no request (nor called anything else). *)
Theorem unsupported_chain_fails_without_fetch
    (dec : Decoder) (store : Store) (chainId : Z) (attestationId : string) :
  ~ supported chainId ->
  Draft1.fetchAttestations dec store chainId attestationId
    = (Thrown (UnsupportedChainId chainId), [])
  /\ Draft2.fetchAttestations dec store chainId attestationId
    = (Thrown (UnsupportedChainId chainId), [])
  /\ errorClass (UnsupportedChainId chainId) = UnsupportedChain.
Proof.
  intros H. apply getEndpoint_unsupported in H.
  unfold Draft1.fetchAttestations, Draft2.fetchAttestations.
  rewrite H. simpl. auto.
Qed.

Lemma unsupported_chain_fails_without_fetch_witness :
  Draft1.fetchAttestations Scenario.decoder Scenario.store 5 "0xAAA"
    = (Thrown (UnsupportedChainId 5), [])
  /\ Draft2.fetchAttestations Scenario.decoder Scenario.store 5 "0xAAA"
    = (Thrown (UnsupportedChainId 5), [])
  /\ errorClass (UnsupportedChainId 5) = UnsupportedChain.
Proof.
  apply (unsupported_chain_fails_without_fetch Scenario.decoder Scenario.store 5 "0xAAA").
  unfold supported. lia.
Defined.

(** ** The boundary lookup *)

Lemma fetchLocationData_same (store : Store) (endpoint : string) (v : option string) :
  Draft2.fetchLocationData store endpoint v = Draft1.fetchLocationData store endpoint v.
Proof. reflexivity. Qed.

Lemma fetchLocationData_trace (store : Store) (endpoint : string) (v : option string) :
  trace (Draft1.fetchLocationData store endpoint v)
  = match truthy v with
    | Some u => [EvFetch (mkRequest endpoint GetLocationAttestation u)]
    | None => []
    end.
Proof.
  unfold Draft1.fetchLocationData.
  destruct (truthy v) as [u|]; [|reflexivity].
  pose proof (fetchLocationAttestation_trace store endpoint u) as Ht.
  destruct (fetchLocationAttestation store endpoint u) as [[[la|]|e] t];
    simpl in *; subst; reflexivity.
Qed.

Lemma fetchLocationData_not_found (store : Store) (endpoint u : string) (v : option string) :
  truthy v = Some u ->
  not_found (store (mkRequest endpoint GetLocationAttestation u)) = true ->
  Draft1.fetchLocationData store endpoint v
  = (Ok None, [EvFetch (mkRequest endpoint GetLocationAttestation u)]).
Proof.
  intros Hv Hn. unfold Draft1.fetchLocationData. rewrite Hv.
  rewrite (fetchLocationAttestation_not_found _ _ _ Hn). reflexivity.
Qed.

(** C10: with a null [locationUID], [fetchLocationData] returns null and
    calls nothing; in general the only thing it ever calls is one lookup
    request, and it sends it exactly when [locationUID] is a non-empty
    string (hence never for null). *)
Theorem fetchLocationData_null_skips_lookup (store : Store) (endpoint : string) :
  Draft1.fetchLocationData store endpoint None = (Ok None, [])
  /\ Draft2.fetchLocationData store endpoint None = (Ok None, [])
  /\ forall locationUID : option string,
       let sent :=
         match locationUID with
         | None => []
         | Some u =>
             if (u =? EmptyString)%string then []
             else [EvFetch (mkRequest endpoint GetLocationAttestation u)]
         end in
       trace (Draft1.fetchLocationData store endpoint locationUID) = sent
       /\ trace (Draft2.fetchLocationData store endpoint locationUID) = sent.
Proof.
  split; [reflexivity | split; [reflexivity|]].
  intros v sent. subst sent.
  change (Draft2.fetchLocationData store endpoint v)
    with (Draft1.fetchLocationData store endpoint v).
  rewrite fetchLocationData_trace.
  destruct v as [u|]; simpl; auto.
  destruct (u =? EmptyString)%string; auto.
Qed.

(** C6: when the mandatory query has succeeded and a non-empty
    [locationUID] was extracted, a lookup that is answered with a
    non-success status, with a body without [data], or with [data] without
    the record, makes [fetchAttestations] of either draft return the
    observations with [locationAttestation = null]; it does not throw. *)
Theorem boundary_lookup_is_lenient
    (dec : Decoder) (store : Store) (chainId : Z) (attestationId endpoint u : string)
    (main : MainAttestations) (t : Trace) :
  truthy (getEndpoint chainId) = Some endpoint ->
  truthy (main_locationUID main) = Some u ->
  not_found (store (mkRequest endpoint GetLocationAttestation u)) = true ->
  (Draft1.fetchMainAttestations dec store endpoint attestationId = (Ok main, t) ->
   Draft1.fetchAttestations dec store chainId attestationId
   = (Ok {| res_attestations := main_attestations main; locationAttestation := None |},
      t ++ [EvFetch (mkRequest endpoint GetLocationAttestation u)]))
  /\ (Draft2.fetchMainAttestations dec store endpoint attestationId = (Ok main, t) ->
      Draft2.fetchAttestations dec store chainId attestationId
      = (Ok {| res_attestations := main_attestations main; locationAttestation := None |},
         t ++ [EvFetch (mkRequest endpoint GetLocationAttestation u)])).
Proof.
  intros Hep Hu Hn.
  split; intros Hmain.
  - unfold Draft1.fetchAttestations. rewrite Hep.
    rewrite (bind_ok _ _ _ _ Hmain).
    rewrite (fetchLocationData_not_found _ _ _ _ Hu Hn). reflexivity.
  - unfold Draft2.fetchAttestations. rewrite Hep.
    rewrite (bind_ok _ _ _ _ Hmain).
    change (Draft2.fetchLocationData store endpoint (main_locationUID main))
      with (Draft1.fetchLocationData store endpoint (main_locationUID main)).
    rewrite (fetchLocationData_not_found _ _ _ _ Hu Hn). reflexivity.
Qed.

Lemma boundary_lookup_is_lenient_witness :
  let missing := Scenario.store_of
                   (Scenario.ok_response (mkData (Some Scenario.root) (Some [Scenario.bbb])))
                   (Resolves {| ok := false; status := 500; json := JsonRejects |}) in
  let main := {| main_attestations := [convertRawAttestationToData Scenario.bbb];
                 main_locationUID := Some "0xLOC" |} in
  let t := [EvFetch (mkRequest Scenario.endpoint GetAttestation "0xAAA");
            EvDecode (Some "locationUID=0xLOC")] in
  Draft1.fetchAttestations Scenario.decoder missing 1 "0xAAA"
  = (Ok {| res_attestations := [convertRawAttestationToData Scenario.bbb];
           locationAttestation := None |},
     t ++ [EvFetch (mkRequest Scenario.endpoint GetLocationAttestation "0xLOC")])
  /\ Draft2.fetchAttestations Scenario.decoder missing 1 "0xAAA"
  = (Ok {| res_attestations := [convertRawAttestationToData Scenario.bbb];
           locationAttestation := None |},
     t ++ [EvFetch (mkRequest Scenario.endpoint GetLocationAttestation "0xLOC")]).
Proof.
  intros missing main t.
  destruct (boundary_lookup_is_lenient Scenario.decoder missing 1 "0xAAA"
              Scenario.endpoint "0xLOC" main t
              eq_refl eq_refl eq_refl) as [H1 H2].
  split; [apply H1 | apply H2]; reflexivity.
Defined.

(** ** The mandatory query and the observation set *)

Section MainAttestations.

Variable dec : Decoder.
Variable store : Store.
Variables endpoint attestationId : string.

Let request := mkRequest endpoint GetAttestation attestationId.

(** What a successful [fetchMainAttestations] of draft 1 implies. *)
Lemma Draft1_main_ok_inv (main : MainAttestations) (t : Trace) :
  Draft1.fetchMainAttestations dec store endpoint attestationId = (Ok main, t) ->
  exists r d refs tdec,
    store request = Resolves r /\ ok r = true /\ json r = JsonBody (Some d)
    /\ attestations d = Some refs /\ refs <> []
    /\ main_attestations main = map convertRawAttestationToData refs
    /\ t = EvFetch request :: tdec
    /\ (tdec = []
        \/ exists root, attestation d = Some root
                        /\ tdec = [EvDecode (decodedDataJson root)]).
Proof.
  unfold Draft1.fetchMainAttestations. intros H.
  apply bind_ok_inv in H. destruct H as (o & t1 & t2 & Hinit & Hk & ->).
  apply fetchInitialAttestations_ok_inv in Hinit.
  destruct Hinit as (r & d & Hs & Hok & Hj & -> & ->).
  apply bind_ok_inv in Hk. destruct Hk as (loc & u1 & u2 & Hloc & Hrest & ->).
  destruct (attestations d) as [refs|] eqn:Hrefs; simpl in Hrest; [|discriminate].
  destruct refs as [|x refs]; simpl in Hrest; [discriminate|].
  inversion Hrest; subst; clear Hrest. simpl.
  exists r, d, (x :: refs), u1. rewrite app_nil_r.
  repeat split; auto; try discriminate.
  destruct (attestation d) as [root|] eqn:Hroot.
  - right. exists root. split; auto.
    unfold tryCatch, Draft1.decode, bind in Hloc.
    destruct (dec (decodedDataJson root)); simpl in Hloc; inversion Hloc; reflexivity.
  - left. inversion Hloc; reflexivity.
Qed.

(** What a successful [fetchMainAttestations] of draft 2 implies. *)
Lemma Draft2_main_ok_inv (main : MainAttestations) (t : Trace) :
  Draft2.fetchMainAttestations dec store endpoint attestationId = (Ok main, t) ->
  exists r d refs tdec,
    store request = Resolves r /\ ok r = true /\ json r = JsonBody (Some d)
    /\ attestations d = Some refs /\ refs <> []
    /\ main_attestations main = map convertRawAttestationToData refs
    /\ t = EvFetch request :: tdec
    /\ (tdec = []
        \/ exists root, attestation d = Some root
                        /\ tdec = [EvDecode (decodedDataJson root)]).
Proof.
  unfold Draft2.fetchMainAttestations. intros H.
  apply bind_ok_inv in H. destruct H as (o & t1 & t2 & Hinit & Hk & ->).
  apply fetchInitialAttestations_ok_inv in Hinit.
  destruct Hinit as (r & d & Hs & Hok & Hj & -> & ->).
  apply bind_ok_inv in Hk. destruct Hk as (loc & u1 & u2 & Hloc & Hrest & ->).
  destruct (attestations d) as [refs|] eqn:Hrefs; simpl in Hrest; [|discriminate].
  destruct refs as [|x refs]; simpl in Hrest; [discriminate|].
  inversion Hrest; subst; clear Hrest. simpl.
  exists r, d, (x :: refs), u1. rewrite app_nil_r.
  repeat split; auto; try discriminate.
  unfold Draft2.extractLocationUID in Hloc.
  destruct (attestation d) as [root|] eqn:Hroot; [|discriminate].
  apply bind_ok_inv in Hloc. destruct Hloc as (c & v1 & v2 & Hc & Hret & ->).
  destruct c as [l|]; [|discriminate]. inversion Hret; subst; clear Hret.
  rewrite app_nil_r.
  destruct (truthy (decodedDataJson root)); [|discriminate].
  right. exists root. split; auto.
  unfold tryCatch, Draft2.decode, bind in Hc.
  destruct (dec (decodedDataJson root)); simpl in Hc; inversion Hc; reflexivity.
Qed.

End MainAttestations.

Lemma decodes_app (t1 t2 : Trace) : decodes (t1 ++ t2) = decodes t1 ++ decodes t2.
Proof. unfold decodes. apply filter_app. Qed.

Lemma decodes_fetchLocationData (store : Store) (endpoint : string) (v : option string) :
  decodes (trace (Draft1.fetchLocationData store endpoint v)) = [].
Proof.
  rewrite fetchLocationData_trace. destruct (truthy v); reflexivity.
Qed.

(** C7, as the code has it: when [fetchAttestations] of either draft
    succeeds, the store has answered the combined query with a non-empty
    [attestations] list, and the returned list is that list, normalized
    entry by entry, in the same order.  The client compares no identifier
    and filters nothing: the root is in the result exactly when the store
    lists it.  So when the answer honours the query (every listed
    attestation references [attestationId], and the root does not), every
    returned attestation references [attestationId] and the root is not
    among them.  The decoder has been called at most once, and then on the
    payload of the root. *)
Theorem resolved_attestations_are_the_listed_ones
    (dec : Decoder) (store : Store) (chainId : Z) (attestationId : string)
    (res : Resolved) (t : Trace) :
  Draft1.fetchAttestations dec store chainId attestationId = (Ok res, t)
  \/ Draft2.fetchAttestations dec store chainId attestationId = (Ok res, t) ->
  exists endpoint r d refs,
    truthy (getEndpoint chainId) = Some endpoint
    /\ store (mkRequest endpoint GetAttestation attestationId) = Resolves r
    /\ json r = JsonBody (Some d)
    /\ attestations d = Some refs
    /\ res_attestations res = map convertRawAttestationToData refs
    /\ length (res_attestations res) = length refs
    /\ (forall root, attestation d = Some root ->
          (In (convertRawAttestationToData root) (res_attestations res) <-> In root refs))
    /\ (honours_query attestationId d ->
        Forall (fun a => refUID a = Some attestationId) (res_attestations res)
        /\ forall root, attestation d = Some root ->
             ~ In (convertRawAttestationToData root) (res_attestations res))
    /\ (decodes t = []
        \/ exists root, attestation d = Some root
                        /\ decodes t = [EvDecode (decodedDataJson root)]).
Proof.
  intros H.
  assert (exists endpoint main t1 t2,
             truthy (getEndpoint chainId) = Some endpoint
             /\ (Draft1.fetchMainAttestations dec store endpoint attestationId = (Ok main, t1)
                 \/ Draft2.fetchMainAttestations dec store endpoint attestationId = (Ok main, t1))
             /\ res_attestations res = main_attestations main
             /\ t2 = trace (Draft1.fetchLocationData store endpoint (main_locationUID main))
             /\ t = t1 ++ t2) as Hsplit.
  { destruct H as [H|H];
      [unfold Draft1.fetchAttestations in H | unfold Draft2.fetchAttestations in H];
      destruct (truthy (getEndpoint chainId)) as [endpoint|]; try discriminate;
      apply bind_ok_inv in H; destruct H as (main & t1 & t2 & Hmain & Hk & ->);
      apply bind_ok_inv in Hk; destruct Hk as (la & u1 & u2 & Hla & Hret & ->);
      inversion Hret; subst; clear Hret;
      exists endpoint, main, t1, u1; rewrite app_nil_r;
      try change (Draft2.fetchLocationData store endpoint (main_locationUID main))
        with (Draft1.fetchLocationData store endpoint (main_locationUID main)) in Hla;
      rewrite Hla; simpl; auto 10. }
  destruct Hsplit as (endpoint & main & t1 & t2 & Hep & Hmain & Hres & Ht2 & ->).
  assert (exists r d refs tdec,
    store (mkRequest endpoint GetAttestation attestationId) = Resolves r /\ ok r = true
    /\ json r = JsonBody (Some d)
    /\ attestations d = Some refs /\ refs <> []
    /\ main_attestations main = map convertRawAttestationToData refs
    /\ t1 = EvFetch (mkRequest endpoint GetAttestation attestationId) :: tdec
    /\ (tdec = []
        \/ exists root, attestation d = Some root
                        /\ tdec = [EvDecode (decodedDataJson root)])) as Hinv.
  { destruct Hmain as [Hm|Hm];
      [eapply Draft1_main_ok_inv | eapply Draft2_main_ok_inv]; eauto. }
  destruct Hinv as (r & d & refs & tdec & Hs & Hok & Hj & Hrefs & Hne & Hatts & -> & Hdec).
  exists endpoint, r, d, refs.
  rewrite Hres, Hatts.
  assert (forall root,
             In (convertRawAttestationToData root) (map convertRawAttestationToData refs)
             -> In root refs) as Hin_inv.
  { intros root Hin. apply in_map_iff in Hin. destruct Hin as (x & Hx & Hin).
    apply convert_injective in Hx. now subst. }
  split; [exact Hep|]. split; [exact Hs|]. split; [exact Hj|]. split; [exact Hrefs|].
  split; [reflexivity|]. split; [apply length_map|].
  split; [intros root _; split; [apply Hin_inv | apply in_map]|].
  split.
  - intros [Hlisted Hroot]. unfold referencing in Hlisted. rewrite Hrefs in Hlisted.
    split.
    + rewrite Forall_forall in *. intros a Ha.
      apply in_map_iff in Ha. destruct Ha as (x & <- & Hx). simpl. auto.
    + intros root Hr Hin. apply Hin_inv in Hin.
      rewrite Forall_forall in Hlisted. exact (Hroot root Hr (Hlisted root Hin)).
  - rewrite decodes_app, Ht2, decodes_fetchLocationData, app_nil_r.
    destruct Hdec as [-> | (root & Hroot & ->)]; [left; reflexivity|].
    right. exists root. auto.
Qed.

Lemma resolved_attestations_are_the_listed_ones_witness :
  exists endpoint r d refs,
    truthy (getEndpoint 1) = Some endpoint
    /\ Scenario.store (mkRequest endpoint GetAttestation "0xAAA") = Resolves r
    /\ json r = JsonBody (Some d)
    /\ attestations d = Some refs
    /\ map convertRawAttestationToData [Scenario.bbb; Scenario.ccc]
       = map convertRawAttestationToData refs
    /\ 2%nat = length refs
    /\ (forall root, attestation d = Some root ->
          (In (convertRawAttestationToData root)
              (map convertRawAttestationToData [Scenario.bbb; Scenario.ccc])
           <-> In root refs))
    /\ (honours_query "0xAAA" d ->
        Forall (fun a => refUID a = Some "0xAAA")
               (map convertRawAttestationToData [Scenario.bbb; Scenario.ccc])
        /\ forall root, attestation d = Some root ->
             ~ In (convertRawAttestationToData root)
                  (map convertRawAttestationToData [Scenario.bbb; Scenario.ccc]))
    /\ (decodes [EvFetch (mkRequest Scenario.endpoint GetAttestation "0xAAA");
                 EvDecode (Some "locationUID=0xLOC");
                 EvFetch (mkRequest Scenario.endpoint GetLocationAttestation "0xLOC")] = []
        \/ exists root, attestation d = Some root
             /\ decodes [EvFetch (mkRequest Scenario.endpoint GetAttestation "0xAAA");
                         EvDecode (Some "locationUID=0xLOC");
                         EvFetch (mkRequest Scenario.endpoint GetLocationAttestation "0xLOC")]
                = [EvDecode (decodedDataJson root)]).
Proof.
  exact (resolved_attestations_are_the_listed_ones
           Scenario.decoder Scenario.store 1 "0xAAA" _ _
           (or_introl scenario_resolve_draft1)).
Defined.

(** The answer of the scenario honours the query, so the condition of the
    theorem can be met. *)
Example scenario_honours_query :
  honours_query "0xAAA" (mkData (Some Scenario.root) (Some [Scenario.bbb; Scenario.ccc])).
Proof.
  split.
  - repeat constructor.
  - intros root H. inversion H; subst. discriminate.
Qed.

(** C7 as stated fails: the client trusts the list it is given.  When the
    store lists the root among the referencing attestations (first store),
    both drafts return it in [attestations]; the same happens with a store
    that honours the query and a root that references itself (second
    store). *)
Lemma resolved_attestations_are_the_listed_ones_counterexample :
  let listed := Scenario.store_of
        (Scenario.ok_response
           (mkData (Some Scenario.root) (Some [Scenario.root; Scenario.bbb])))
        Scenario.found_loc in
  let self := mkRaw "0xAAA" "0xSCHEMA" (Some "0xAAA") (Some "locationUID=0xLOC") in
  let honest := Scenario.store_of
        (Scenario.ok_response (mkData (Some self) (Some [self; Scenario.bbb])))
        Scenario.found_loc in
  result (Draft1.fetchAttestations Scenario.decoder listed 1 "0xAAA")
    = Ok {| res_attestations :=
              [convertRawAttestationToData Scenario.root;
               convertRawAttestationToData Scenario.bbb];
            locationAttestation := Some (convertRawAttestationToData Scenario.loc) |}
  /\ result (Draft2.fetchAttestations Scenario.decoder listed 1 "0xAAA")
    = Ok {| res_attestations :=
              [convertRawAttestationToData Scenario.root;
               convertRawAttestationToData Scenario.bbb];
            locationAttestation := Some (convertRawAttestationToData Scenario.loc) |}
  /\ result (Draft1.fetchAttestations Scenario.decoder honest 1 "0xAAA")
    = Ok {| res_attestations :=
              [convertRawAttestationToData self;
               convertRawAttestationToData Scenario.bbb];
            locationAttestation := Some (convertRawAttestationToData Scenario.loc) |}
  /\ result (Draft2.fetchAttestations Scenario.decoder honest 1 "0xAAA")
    = Ok {| res_attestations :=
              [convertRawAttestationToData self;
               convertRawAttestationToData Scenario.bbb];
            locationAttestation := Some (convertRawAttestationToData Scenario.loc) |}
  /\ uid (convertRawAttestationToData Scenario.root) = "0xAAA"
  /\ uid (convertRawAttestationToData self) = "0xAAA".
Proof. repeat split. Qed.

(** ** The two drafts on a successful answer to the mandatory query *)

Lemma fetchLocationData_truthy (store : Store) (endpoint : string) (v : option string) :
  Draft1.fetchLocationData store endpoint (truthy v)
  = Draft1.fetchLocationData store endpoint v.
Proof. unfold Draft1.fetchLocationData. now rewrite truthy_idem. Qed.

Lemma fetchLocationData_falsy (store : Store) (endpoint : string) (v : option string) :
  truthy v = None -> Draft1.fetchLocationData store endpoint v = (Ok None, []).
Proof. intros H. unfold Draft1.fetchLocationData. now rewrite H. Qed.

(** The lenient lookup throws only what [fetch] and [response.json()] throw. *)
Lemma fetchLocationData_thrown (store : Store) (endpoint : string) (v : option string)
    (e : Err) :
  result (Draft1.fetchLocationData store endpoint v) = Thrown e ->
  errorClass e = StoreUnreachable \/ errorClass e = Unclassified.
Proof.
  unfold Draft1.fetchLocationData, fetchLocationAttestation, executeGraphQLQuery,
    fetch, response_json.
  destruct (truthy v) as [u|]; simpl; [|discriminate].
  destruct (store _) as [reason|r]; simpl.
  - intros H; inversion H; auto.
  - destruct (ok r); simpl; [|discriminate].
    destruct (json r) as [|[d|]]; simpl; try discriminate.
    + intros H; inversion H; auto.
    + destruct (attestation d); discriminate.
Qed.

Section OnData.

Variable dec : Decoder.
Variable store : Store.
Variable chainId : Z.
Variables endpoint attestationId : string.
Variable r : HttpResponse.
Variable d : GraphQLData.

Hypothesis Hendpoint : truthy (getEndpoint chainId) = Some endpoint.
Hypothesis Hstore : store (mkRequest endpoint GetAttestation attestationId) = Resolves r.
Hypothesis Hok : ok r = true.
Hypothesis Hjson : json r = JsonBody (Some d).

Lemma Draft1_resolve :
  result (Draft1.fetchAttestations dec store chainId attestationId)
  = match referencing d with
    | [] => Thrown (NoAttestationsFound attestationId)
    | refs =>
        match result (Draft1.fetchLocationData store endpoint (draft1_locationUID dec d)) with
        | Ok la => Ok {| res_attestations := map convertRawAttestationToData refs;
                         locationAttestation := la |}
        | Thrown e => Thrown e
        end
    end.
Proof.
  unfold Draft1.fetchAttestations, Draft1.fetchMainAttestations.
  rewrite Hendpoint.
  rewrite (fetchInitialAttestations_ok _ _ _ _ _ Hstore Hok Hjson).
  unfold referencing, draft1_locationUID, Draft1.decode, tryCatch. simpl.
  destruct (attestation d) as [root|];
    [destruct (dec (decodedDataJson root)) as [payload|e]|];
    (destruct (attestations d) as [[|x refs]|]; simpl; try reflexivity;
     match goal with
     | |- context [Draft1.fetchLocationData ?s ?e ?v] =>
         destruct (Draft1.fetchLocationData s e v) as [[la|e'] t']; reflexivity
     end).
Qed.

Lemma Draft2_resolve :
  result (Draft2.fetchAttestations dec store chainId attestationId)
  = match draft2_locationUID dec d with
    | Thrown e => Thrown e
    | Ok uid' =>
        match referencing d with
        | [] => Thrown (NoAttestationsReferencing attestationId)
        | refs =>
            match result (Draft1.fetchLocationData store endpoint uid') with
            | Ok la => Ok {| res_attestations := map convertRawAttestationToData refs;
                             locationAttestation := la |}
            | Thrown e => Thrown e
            end
        end
    end.
Proof.
  unfold Draft2.fetchAttestations, Draft2.fetchMainAttestations, Draft2.extractLocationUID.
  rewrite Hendpoint.
  rewrite (fetchInitialAttestations_ok _ _ _ _ _ Hstore Hok Hjson).
  unfold referencing, draft2_locationUID, Draft2.decode, tryCatch. simpl.
  destruct (attestation d) as [root|]; [|reflexivity].
  destruct (truthy (decodedDataJson root)); [|reflexivity].
  destruct (dec (decodedDataJson root)) as [payload|e]; [|reflexivity].
  destruct (attestations d) as [[|x refs]|]; simpl; try reflexivity.
  change (Draft2.fetchLocationData store endpoint (truthy (locationUID payload)))
    with (Draft1.fetchLocationData store endpoint (truthy (locationUID payload))).
  destruct (Draft1.fetchLocationData store endpoint (truthy (locationUID payload)))
    as [[la|e'] t']; reflexivity.
Qed.

End OnData.

(** ** A root without a location reference *)

(** C1, as the code has it: on a successful answer to the mandatory query
    that holds the root,
    - draft 2 throws the no-locationUID error (class
      [LocationReferenceMissing]) when the root's [decodedDataJson] is
      empty or missing, or when decoding it throws, whether or not there
      are referencing attestations;
    - draft 1 throws no such error: when the root's payload lacks a location
      reference and at least one attestation references the root, it returns
      the normalized referencing attestations with
      [locationAttestation = null]. *)
Theorem missing_location_reference
    (dec : Decoder) (store : Store) (chainId : Z) (endpoint attestationId : string)
    (r : HttpResponse) (d : GraphQLData) (root : RawAttestation) :
  truthy (getEndpoint chainId) = Some endpoint ->
  store (mkRequest endpoint GetAttestation attestationId) = Resolves r ->
  ok r = true ->
  json r = JsonBody (Some d) ->
  attestation d = Some root ->
  (truthy (decodedDataJson root) = None
   \/ (exists e, dec (decodedDataJson root) = Thrown e) ->
   result (Draft2.fetchAttestations dec store chainId attestationId)
     = Thrown (NoLocationUIDFound (raw_id root))
   /\ errorClass (NoLocationUIDFound (raw_id root)) = LocationReferenceMissing)
  /\ (lacks_location_reference dec root ->
      referencing d <> [] ->
      result (Draft1.fetchAttestations dec store chainId attestationId)
        = Ok {| res_attestations := map convertRawAttestationToData (referencing d);
                locationAttestation := None |}).
Proof.
  intros Hep Hs Hok Hj Hroot. split.
  - intros Hbad. split; [|reflexivity].
    rewrite (Draft2_resolve dec store chainId endpoint attestationId r d Hep Hs Hok Hj).
    unfold draft2_locationUID. rewrite Hroot.
    destruct Hbad as [Hn | [e He]].
    + now rewrite Hn.
    + rewrite He. destruct (truthy (decodedDataJson root)); reflexivity.
  - intros Hlacks Hrefs.
    rewrite (Draft1_resolve dec store chainId endpoint attestationId r d Hep Hs Hok Hj).
    destruct (referencing d) as [|x refs] eqn:Href; [contradiction|].
    assert (truthy (draft1_locationUID dec d) = None) as Hnone.
    { unfold draft1_locationUID, lacks_location_reference in *. rewrite Hroot.
      destruct (dec (decodedDataJson root)); auto. }
    rewrite (fetchLocationData_falsy _ _ _ Hnone). reflexivity.
Qed.

Lemma missing_location_reference_witness :
  let answer := Scenario.ok_response
                  (mkData (Some Scenario.root_bad_payload) (Some [Scenario.bbb])) in
  let store := Scenario.store_of answer Scenario.found_loc in
  result (Draft2.fetchAttestations Scenario.decoder store 1 "0xAAA")
    = Thrown (NoLocationUIDFound "0xAAA")
  /\ result (Draft1.fetchAttestations Scenario.decoder store 1 "0xAAA")
    = Ok {| res_attestations := [convertRawAttestationToData Scenario.bbb];
            locationAttestation := None |}.
Proof.
  intros answer store.
  destruct (missing_location_reference Scenario.decoder store 1 Scenario.endpoint "0xAAA"
              {| ok := true; status := 200;
                 json := JsonBody (Some (mkData (Some Scenario.root_bad_payload)
                                                (Some [Scenario.bbb]))) |}
              (mkData (Some Scenario.root_bad_payload) (Some [Scenario.bbb]))
              Scenario.root_bad_payload
              eq_refl eq_refl eq_refl eq_refl eq_refl) as [H2 H1].
  split.
  - apply H2. right. eexists. reflexivity.
  - apply H1; [exact I | discriminate].
Defined.

(** C1 as stated fails on draft 1: the root of this answer has a payload
    that does not decode (first store) or that decodes to a payload without
    [locationUID] (second store), two attestations reference it, and
    [fetchAttestations] returns them with a null boundary. *)
Lemma missing_location_reference_counterexample :
  let undecodable := Scenario.store_of
        (Scenario.ok_response
           (mkData (Some Scenario.root_bad_payload) (Some [Scenario.bbb; Scenario.ccc])))
        Scenario.found_loc in
  let absent := Scenario.store_of
        (Scenario.ok_response
           (mkData (Some Scenario.root_empty_payload) (Some [Scenario.bbb; Scenario.ccc])))
        Scenario.found_loc in
  Scenario.decoder (decodedDataJson Scenario.root_bad_payload)
    = Thrown (DecodeFailure "malformed payload")
  /\ Scenario.decoder (decodedDataJson Scenario.root_empty_payload)
    = Ok {| locationUID := None |}
  /\ Draft1.fetchAttestations Scenario.decoder undecodable 1 "0xAAA"
    = (Ok {| res_attestations := map convertRawAttestationToData [Scenario.bbb; Scenario.ccc];
             locationAttestation := None |},
       [EvFetch (mkRequest Scenario.endpoint GetAttestation "0xAAA");
        EvDecode (Some "not a payload")])
  /\ Draft1.fetchAttestations Scenario.decoder absent 1 "0xAAA"
    = (Ok {| res_attestations := map convertRawAttestationToData [Scenario.bbb; Scenario.ccc];
             locationAttestation := None |},
       [EvFetch (mkRequest Scenario.endpoint GetAttestation "0xAAA");
        EvDecode (Some "{}")]).
Proof. repeat split. Qed.

(** Draft 2 on a root whose payload decodes but has no [locationUID]: the
    [return] inside the [try] hands back null, the [throw] that follows the
    [try] is not reached, and the call returns with a null boundary. *)
Example draft2_absent_locationUID_returns :
  Draft2.fetchAttestations Scenario.decoder
    (Scenario.store_of
       (Scenario.ok_response
          (mkData (Some Scenario.root_empty_payload) (Some [Scenario.bbb; Scenario.ccc])))
       Scenario.found_loc) 1 "0xAAA"
  = (Ok {| res_attestations := map convertRawAttestationToData [Scenario.bbb; Scenario.ccc];
           locationAttestation := None |},
     [EvFetch (mkRequest Scenario.endpoint GetAttestation "0xAAA");
      EvDecode (Some "{}")]).
Proof. reflexivity. Qed.

(** ** No referencing attestation *)

(** C2, as the code has it: on a successful answer to the mandatory query
    whose [attestations] list is empty or missing, both drafts throw.
    Draft 1 throws the no-attestations error (class
    [NoReferencingAttestations]) whether or not the root is there.  Draft 2
    looks at the root first: it throws the root-not-found error when the
    root is missing, the no-locationUID error when the root's payload is
    empty or does not decode, and the no-referencing-attestations error
    only when the root is there with a non-empty payload that decodes. *)
Theorem no_referencing_attestations
    (dec : Decoder) (store : Store) (chainId : Z) (endpoint attestationId : string)
    (r : HttpResponse) (d : GraphQLData) :
  truthy (getEndpoint chainId) = Some endpoint ->
  store (mkRequest endpoint GetAttestation attestationId) = Resolves r ->
  ok r = true ->
  json r = JsonBody (Some d) ->
  referencing d = [] ->
  (result (Draft1.fetchAttestations dec store chainId attestationId)
     = Thrown (NoAttestationsFound attestationId)
   /\ errorClass (NoAttestationsFound attestationId) = NoReferencingAttestations)
  /\ (attestation d = None ->
      result (Draft2.fetchAttestations dec store chainId attestationId)
        = Thrown NoAttestationFound)
  /\ (forall root, attestation d = Some root ->
      truthy (decodedDataJson root) = None
      \/ (exists e, dec (decodedDataJson root) = Thrown e) ->
      result (Draft2.fetchAttestations dec store chainId attestationId)
        = Thrown (NoLocationUIDFound (raw_id root)))
  /\ (forall root payload, attestation d = Some root ->
      truthy (decodedDataJson root) <> None ->
      dec (decodedDataJson root) = Ok payload ->
      result (Draft2.fetchAttestations dec store chainId attestationId)
        = Thrown (NoAttestationsReferencing attestationId)
      /\ errorClass (NoAttestationsReferencing attestationId) = NoReferencingAttestations).
Proof.
  intros Hep Hs Hok Hj Hrefs.
  rewrite (Draft1_resolve dec store chainId endpoint attestationId r d Hep Hs Hok Hj).
  rewrite (Draft2_resolve dec store chainId endpoint attestationId r d Hep Hs Hok Hj).
  rewrite Hrefs. unfold draft2_locationUID.
  repeat split.
  - intros ->. reflexivity.
  - intros root -> [Hn | [e He]].
    + now rewrite Hn.
    + rewrite He. destruct (truthy (decodedDataJson root)); reflexivity.
  - match goal with
    | Hroot : attestation d = Some ?root, Hdec : dec _ = Ok _ |- _ =>
        rewrite Hroot, Hdec; destruct (truthy (decodedDataJson root));
        [reflexivity | contradiction]
    end.
Qed.

Lemma no_referencing_attestations_witness :
  let store := Scenario.store_of
                 (Scenario.ok_response (mkData (Some Scenario.root) (Some [])))
                 Scenario.found_loc in
  result (Draft1.fetchAttestations Scenario.decoder store 1 "0xAAA")
    = Thrown (NoAttestationsFound "0xAAA")
  /\ result (Draft2.fetchAttestations Scenario.decoder store 1 "0xAAA")
    = Thrown (NoAttestationsReferencing "0xAAA").
Proof.
  intros store.
  destruct (no_referencing_attestations Scenario.decoder store 1 Scenario.endpoint "0xAAA"
              {| ok := true; status := 200;
                 json := JsonBody (Some (mkData (Some Scenario.root) (Some []))) |}
              (mkData (Some Scenario.root) (Some []))
              eq_refl eq_refl eq_refl eq_refl eq_refl) as [[H1 _] [_ [_ H2]]].
  split; [exact H1|].
  apply (H2 Scenario.root {| locationUID := Some "0xLOC" |});
    [reflexivity | discriminate | reflexivity].
Defined.

(** C2 as stated fails on draft 2: the answer has neither the root nor any
    referencing attestation, and the error is the root-not-found one, not
    one of class [NoReferencingAttestations]; with a root whose payload
    does not decode it is the no-locationUID one. *)
Lemma no_referencing_attestations_counterexample :
  let no_root := Scenario.store_of
        (Scenario.ok_response (mkData None (Some []))) Scenario.found_loc in
  let bad_root := Scenario.store_of
        (Scenario.ok_response (mkData (Some Scenario.root_bad_payload) (Some [])))
        Scenario.found_loc in
  Draft2.fetchAttestations Scenario.decoder no_root 1 "0xAAA"
    = (Thrown NoAttestationFound,
       [EvFetch (mkRequest Scenario.endpoint GetAttestation "0xAAA")])
  /\ errorClass NoAttestationFound = RootAttestationNotFound
  /\ Draft2.fetchAttestations Scenario.decoder bad_root 1 "0xAAA"
    = (Thrown (NoLocationUIDFound "0xAAA"),
       [EvFetch (mkRequest Scenario.endpoint GetAttestation "0xAAA");
        EvDecode (Some "not a payload")])
  /\ errorClass (NoLocationUIDFound "0xAAA") = LocationReferenceMissing.
Proof. repeat split. Qed.

(** ** The two drafts compared *)

Lemma equivalent_refl (a : Result Resolved) : equivalent a a.
Proof. destruct a; reflexivity. Qed.

(** When the mandatory query fails, both drafts throw what it throws. *)
Lemma drafts_on_initial_failure (dec : Decoder) (store : Store) (chainId : Z)
    (endpoint attestationId : string) (e : Err) :
  truthy (getEndpoint chainId) = Some endpoint ->
  initial_failure (store (mkRequest endpoint GetAttestation attestationId)) = Some e ->
  result (Draft1.fetchAttestations dec store chainId attestationId) = Thrown e
  /\ result (Draft2.fetchAttestations dec store chainId attestationId) = Thrown e.
Proof.
  intros Hep Hfail.
  unfold Draft1.fetchAttestations, Draft2.fetchAttestations,
    Draft1.fetchMainAttestations, Draft2.fetchMainAttestations.
  rewrite Hep, (fetchInitialAttestations_thrown _ _ _ _ Hfail). auto.
Qed.

(** Draft 1 never throws an error of the two classes that draft 2 throws
    while it looks at the root. *)
Lemma Draft1_not_root_error (dec : Decoder) (store : Store) (endpoint attestationId : string)
    (d : GraphQLData) (e : Err) :
  match referencing d with
  | [] => Thrown (NoAttestationsFound attestationId)
  | refs =>
      match result (Draft1.fetchLocationData store endpoint (draft1_locationUID dec d)) with
      | Ok la => Ok {| res_attestations := map convertRawAttestationToData refs;
                       locationAttestation := la |}
      | Thrown e' => Thrown e'
      end
  end = Thrown e ->
  errorClass e <> RootAttestationNotFound /\ errorClass e <> LocationReferenceMissing.
Proof.
  destruct (referencing d) as [|x refs].
  - intros H; inversion H; subst; simpl. split; discriminate.
  - destruct (result (Draft1.fetchLocationData store endpoint (draft1_locationUID dec d)))
      as [la|e'] eqn:Hla; [discriminate|].
    intros H; inversion H; subst.
    destruct (fetchLocationData_thrown _ _ _ _ Hla) as [-> | ->]; split; discriminate.
Qed.

(** C3, as the code has it: the two drafts give equivalent outcomes (the
    same returned value, or errors of the same class) exactly on the inputs
    of [drafts_agree_on]: an unsupported chain, a failed mandatory query, or
    a root that is present with a non-empty payload that decodes.  On every
    other input (root missing, payload empty, payload undecodable) their
    outcomes differ. *)
Theorem drafts_equivalent_iff
    (dec : Decoder) (store : Store) (chainId : Z) (attestationId : string) :
  equivalent (result (Draft1.fetchAttestations dec store chainId attestationId))
             (result (Draft2.fetchAttestations dec store chainId attestationId))
  <-> drafts_agree_on dec store chainId attestationId = true.
Proof.
  unfold drafts_agree_on.
  destruct (truthy (getEndpoint chainId)) as [endpoint|] eqn:Hep.
  2:{ unfold Draft1.fetchAttestations, Draft2.fetchAttestations. rewrite Hep.
      simpl. split; auto. }
  destruct (initial_failure (store (mkRequest endpoint GetAttestation attestationId)))
    as [e|] eqn:Hfail.
  { destruct (drafts_on_initial_failure dec store chainId endpoint attestationId e Hep Hfail)
      as [-> ->].
    unfold initial_failure in Hfail.
    destruct (store _) as [reason|r]; [simpl; split; auto|].
    destruct (ok r); [|simpl; split; auto].
    destruct (json r) as [|[d|]]; try discriminate; simpl; split; auto. }
  unfold initial_failure in Hfail.
  destruct (store _) as [reason|r] eqn:Hs; [discriminate|].
  destruct (ok r) eqn:Hok; [|discriminate].
  destruct (json r) as [|[d|]] eqn:Hj; try discriminate. clear Hfail.
  rewrite (Draft1_resolve dec store chainId endpoint attestationId r d Hep Hs Hok Hj).
  rewrite (Draft2_resolve dec store chainId endpoint attestationId r d Hep Hs Hok Hj).
  pose proof (Draft1_not_root_error dec store endpoint attestationId d) as Hd1.
  unfold draft2_locationUID.
  destruct (attestation d) as [root|] eqn:Hroot.
  - destruct (truthy (decodedDataJson root)) as [s|] eqn:Ht.
    + destruct (dec (decodedDataJson root)) as [payload|e] eqn:Hdec.
      * (* the root decodes: same lookup, same observations *)
        split; [reflexivity|]. intros _.
        unfold draft1_locationUID. rewrite Hroot, Hdec.
        rewrite fetchLocationData_truthy.
        destruct (referencing d); [reflexivity | apply equivalent_refl].
      * split; [|discriminate]. intros Heq.
        destruct (match referencing d with [] => _ | _ => _ end) as [x|e']; [contradiction|].
        destruct (Hd1 e' eq_refl) as [_ Hc]. simpl in Heq. congruence.
    + split.
      * intros Heq.
        destruct (match referencing d with [] => _ | _ => _ end) as [x|e']; [contradiction|].
        destruct (Hd1 e' eq_refl) as [_ Hc]. simpl in Heq. congruence.
      * destruct (dec (decodedDataJson root)); discriminate.
  - split; [|discriminate]. intros Heq.
    destruct (match referencing d with [] => _ | _ => _ end) as [x|e']; [contradiction|].
    destruct (Hd1 e' eq_refl) as [Hc _]. simpl in Heq. congruence.
Qed.

(** C3 as stated fails: the store answers the combined query with no root
    and two referencing attestations; draft 1 returns them with a null
    boundary, draft 2 throws the root-not-found error. *)
Lemma drafts_equivalent_counterexample :
  let store := Scenario.store_of
        (Scenario.ok_response (mkData None (Some [Scenario.bbb; Scenario.ccc])))
        Scenario.found_loc in
  Draft1.fetchAttestations Scenario.decoder store 1 "0xAAA"
    = (Ok {| res_attestations := map convertRawAttestationToData [Scenario.bbb; Scenario.ccc];
             locationAttestation := None |},
       [EvFetch (mkRequest Scenario.endpoint GetAttestation "0xAAA")])
  /\ Draft2.fetchAttestations Scenario.decoder store 1 "0xAAA"
    = (Thrown NoAttestationFound,
       [EvFetch (mkRequest Scenario.endpoint GetAttestation "0xAAA")])
  /\ ~ equivalent (result (Draft1.fetchAttestations Scenario.decoder store 1 "0xAAA"))
                  (result (Draft2.fetchAttestations Scenario.decoder store 1 "0xAAA")).
Proof. repeat split. intros H. exact H. Qed.

(** ** Polygon containment *)

Lemma array_map_ok_length {A B} (f : A -> nat -> Result B) (xs : list A) :
  forall start ys, array_map f start xs = Ok ys -> length ys = length xs.
Proof.
  induction xs as [|x xs IH]; intros start ys; simpl.
  - intros H; inversion H; reflexivity.
  - destruct (f x start) as [y|e]; simpl; [|discriminate].
    destruct (array_map f (S start) xs) as [ys'|e] eqn:Hrest; simpl; [|discriminate].
    intros H; inversion H; subst. simpl. f_equal. eapply IH; eauto.
Qed.

Lemma array_map_first_thrown {A B} (f : A -> nat -> Result B) (e : Err)
    (before : list A) (a : A) (after : list A) :
  forall start,
    (forall x i, In x before -> exists y, f x i = Ok y) ->
    f a (start + length before)%nat = Thrown e ->
    array_map f start (before ++ a :: after) = Thrown e.
Proof.
  induction before as [|b before IH]; intros start Hok Ha; simpl in *.
  - rewrite Nat.add_0_r in Ha. now rewrite Ha.
  - destruct (Hok b start (or_introl eq_refl)) as [y Hy]. rewrite Hy. simpl.
    rewrite IH; auto.
    now rewrite Nat.add_succ_comm.
Qed.

Lemma array_map_some_thrown {A B} (f : A -> nat -> Result B) (xs : list A) (a : A) :
  forall start,
    In a xs ->
    (forall i, exists e, f a i = Thrown e) ->
    exists e, array_map f start xs = Thrown e.
Proof.
  induction xs as [|x xs IH]; intros start Hin Ha; simpl in *; [contradiction|].
  destruct (f x start) as [y|e] eqn:Hx; simpl; [|eauto].
  destruct Hin as [-> | Hin].
  - destruct (Ha start) as [e He]. congruence.
  - destruct (IH (S start) Hin Ha) as [e He]. rewrite He. simpl. eauto.
Qed.

Section ContainmentProperties.

Variables LocationData Coordinates PolygonFeature PointFeature : Type.
Variable coordinates : LocationData -> Coordinates.
Variable extractLocationFromAttestation : AttestationData -> Result LocationData.
Variable polygon : Coordinates -> Result PolygonFeature.
Variable point : Coordinates -> Result PointFeature.
Variable booleanContains : PolygonFeature -> PointFeature -> bool.

Local Abbreviation validate :=
  (validateObservation coordinates extractLocationFromAttestation point booleanContains).
Local Abbreviation test :=
  (testPolygonContainment coordinates extractLocationFromAttestation polygon point
     booleanContains).
Local Abbreviation decodable_polygon :=
  (decodable_polygon coordinates extractLocationFromAttestation polygon).
Local Abbreviation decodable_point :=
  (decodable_point coordinates extractLocationFromAttestation point).
Local Abbreviation undecodable_point :=
  (undecodable_point coordinates extractLocationFromAttestation point).

Lemma validateObservation_decodable (index : nat) (a : AttestationData)
    (turfPolygon : PolygonFeature) :
  decodable_point a ->
  exists res, validate index a turfPolygon = Ok res /\ attestationId res = uid a.
Proof.
  intros (ld & pt & Hld & Hpt). unfold validate, validateObservation.
  rewrite Hld. simpl. rewrite Hpt. simpl. eexists. split; reflexivity.
Qed.

Lemma validateObservation_undecodable (index : nat) (a : AttestationData)
    (turfPolygon : PolygonFeature) (e : Err) :
  undecodable_point a e -> validate index a turfPolygon = Thrown e.
Proof.
  unfold validate, validateObservation.
  intros [H | (ld & Hld & Hpt)].
  - now rewrite H.
  - rewrite Hld. simpl. now rewrite Hpt.
Qed.

Lemma validateObservation_uid (index : nat) (a : AttestationData)
    (turfPolygon : PolygonFeature) (res : ContainmentResult LocationData) :
  validate index a turfPolygon = Ok res -> attestationId res = uid a.
Proof.
  unfold validate, validateObservation.
  destruct (extractLocationFromAttestation a) as [ld|e]; simpl; [|discriminate].
  destruct (point (coordinates ld)) as [pt|e]; simpl; [|discriminate].
  intros H; inversion H; reflexivity.
Qed.

Lemma array_map_validate_uids (turfPolygon : PolygonFeature) (xs : list AttestationData) :
  forall start results,
    array_map (fun a index => validate index a turfPolygon) start xs = Ok results ->
    map attestationId results = map uid xs.
Proof.
  induction xs as [|x xs IH]; intros start results; simpl.
  - intros H; inversion H; reflexivity.
  - destruct (validate start x turfPolygon) as [y|e] eqn:Hy; simpl; [|discriminate].
    destruct (array_map _ (S start) xs) as [ys|e] eqn:Hrest; simpl; [|discriminate].
    intros H; inversion H; subst. simpl.
    rewrite (validateObservation_uid _ _ _ _ Hy). f_equal. eapply IH; eauto.
Qed.

(** C4: with a boundary whose payload decodes to a polygon and
    observations whose payloads all decode to points,
    [testPolygonContainment] returns a list as long as the observation list
    (the empty list for no observation), and its i-th result carries the uid
    of the i-th observation. *)
Theorem containment_results_match_observations
    (attestations : list AttestationData) (locationAttestation : AttestationData) :
  decodable_polygon locationAttestation ->
  Forall decodable_point attestations ->
  exists results,
    test attestations locationAttestation = Ok results
    /\ length results = length attestations
    /\ (attestations = [] -> results = [])
    /\ forall i observation,
         nth_error attestations i = Some observation ->
         exists res, nth_error results i = Some res
                     /\ attestationId res = uid observation.
Proof.
  intros (pd & poly & Hpd & Hpoly) Hall.
  assert (exists results,
             array_map (fun a index => validate index a poly) 0%nat attestations
             = Ok results) as [results Hres].
  { generalize 0%nat.
    induction Hall as [|a rest Ha Hrest IH]; intros start; simpl; [eauto|].
    destruct (validateObservation_decodable start a poly Ha) as (res & Hv & _).
    rewrite Hv. simpl. destruct (IH (S start)) as [ys Hys]. rewrite Hys. simpl. eauto. }
  exists results.
  assert (test attestations locationAttestation = Ok results) as Htest.
  { unfold test, testPolygonContainment. rewrite Hpd. simpl. rewrite Hpoly. simpl.
    exact Hres. }
  pose proof (array_map_ok_length _ _ _ _ Hres) as Hlen.
  pose proof (array_map_validate_uids _ _ _ _ Hres) as Huids.
  repeat split; auto.
  - intros ->. destruct results; [reflexivity | discriminate].
  - intros i observation Hi.
    assert (nth_error (map attestationId results) i = Some (uid observation)) as Hn
      by (rewrite Huids; now apply map_nth_error).
    rewrite nth_error_map in Hn.
    destruct (nth_error results i) as [res|]; [|discriminate].
    exists res. simpl in Hn. inversion Hn. auto.
Qed.

(** C5: if the payload of an observation does not decode to a point,
    [testPolygonContainment] throws and returns no list at all; and when
    the boundary decodes and every observation before that one decodes,
    what it throws is the error of that observation. *)
Theorem containment_fails_on_first_undecodable
    (before : list AttestationData) (observation : AttestationData)
    (after : list AttestationData) (locationAttestation : AttestationData) (e : Err) :
  undecodable_point observation e ->
  (exists e', test (before ++ observation :: after) locationAttestation = Thrown e')
  /\ (decodable_polygon locationAttestation ->
      Forall decodable_point before ->
      test (before ++ observation :: after) locationAttestation = Thrown e).
Proof.
  intros Hbad. split.
  - unfold test, testPolygonContainment.
    destruct (extractLocationFromAttestation locationAttestation) as [pd|e1];
      simpl; [|eauto].
    destruct (polygon (coordinates pd)) as [poly|e2]; simpl; [|eauto].
    apply array_map_some_thrown with (a := observation).
    + apply in_or_app. right. left. reflexivity.
    + intros i. exists e. now apply validateObservation_undecodable.
  - intros (pd & poly & Hpd & Hpoly) Hbefore.
    unfold test, testPolygonContainment. rewrite Hpd. simpl. rewrite Hpoly. simpl.
    apply array_map_first_thrown.
    + intros x i Hx. rewrite Forall_forall in Hbefore.
      destruct (validateObservation_decodable i x poly (Hbefore x Hx)) as (res & Hv & _).
      eauto.
    + now apply validateObservation_undecodable.
Qed.

End ContainmentProperties.

Example evaluate_no_observation :
  Scenario.evaluate [] (convertRawAttestationToData Scenario.loc) = Ok [].
Proof. reflexivity. Qed.

Lemma containment_results_match_observations_witness :
  let observations := map convertRawAttestationToData [Scenario.bbb; Scenario.ccc] in
  exists results,
    Scenario.evaluate observations (convertRawAttestationToData Scenario.loc) = Ok results
    /\ length results = length observations
    /\ (observations = [] -> results = [])
    /\ forall i observation,
         nth_error observations i = Some observation ->
         exists res, nth_error results i = Some res
                     /\ attestationId res = uid observation.
Proof.
  intros observations.
  apply (containment_results_match_observations
           Scenario.Geometry Scenario.Geometry (list (Z * Z)) (Z * Z)
           Scenario.coordinates Scenario.extractLocation Scenario.polygon Scenario.point
           Scenario.contains observations (convertRawAttestationToData Scenario.loc)).
  - eexists. eexists. split; reflexivity.
  - repeat constructor; (eexists; eexists; split; reflexivity).
Defined.

Lemma containment_fails_on_first_undecodable_witness :
  Scenario.evaluate
    (map convertRawAttestationToData [Scenario.bbb; Scenario.ddd; Scenario.ccc])
    (convertRawAttestationToData Scenario.loc)
  = Thrown (DecodeFailure "no location").
Proof.
  apply (containment_fails_on_first_undecodable
           Scenario.Geometry Scenario.Geometry (list (Z * Z)) (Z * Z)
           Scenario.coordinates Scenario.extractLocation Scenario.polygon Scenario.point
           Scenario.contains
           [convertRawAttestationToData Scenario.bbb]
           (convertRawAttestationToData Scenario.ddd)
           [convertRawAttestationToData Scenario.ccc]
           (convertRawAttestationToData Scenario.loc)
           (DecodeFailure "no location")).
  - left. reflexivity.
  - eexists. eexists. split; reflexivity.
  - repeat constructor. eexists. eexists. split; reflexivity.
Defined.

(** * Further properties of the client *)

Lemma result_bind {A B} (m : IO A) (k : A -> IO B) :
  result (bind m k)
  = match result m with
    | Ok a => result (k a)
    | Thrown e => Thrown e
    end.
Proof. destruct m as [[a|e] t]; simpl; [destruct (k a)|]; reflexivity. Qed.

Lemma trace_bind {A B} (m : IO A) (k : A -> IO B) :
  trace (bind m k)
  = trace m ++ match result m with
               | Ok a => trace (k a)
               | Thrown _ => []
               end.
Proof.
  destruct m as [[a|e] t]; simpl; [destruct (k a); reflexivity|].
  now rewrite app_nil_r.
Qed.

Lemma executeGraphQLQuery_trace (store : Store) (endpoint : string) (query : Query)
    (variables : string) (throwOnError : bool) :
  trace (executeGraphQLQuery store endpoint query variables throwOnError)
  = [EvFetch (mkRequest endpoint query variables)].
Proof.
  unfold executeGraphQLQuery, fetch, response_json.
  destruct (store _) as [reason|r]; simpl; [reflexivity|].
  destruct (ok r); simpl; [|destruct throwOnError; reflexivity].
  destruct (json r) as [|[d|]]; simpl; try reflexivity.
  destruct throwOnError; reflexivity.
Qed.

(** X15: one call of [executeGraphQLQuery] sends exactly one request (to
    the given endpoint, with the given query and uid), however it ends.
    With [throwOnError = true] it never returns null data; with
    [throwOnError = false] it throws only when [fetch] rejects or the body
    of a success response cannot be read. *)
Theorem executeGraphQLQuery_modes (store : Store) (endpoint : string) (query : Query)
    (variables : string) :
  (forall throwOnError,
      trace (executeGraphQLQuery store endpoint query variables throwOnError)
      = [EvFetch (mkRequest endpoint query variables)])
  /\ result (executeGraphQLQuery store endpoint query variables true) <> Ok None
  /\ forall e,
       result (executeGraphQLQuery store endpoint query variables false) = Thrown e ->
       lookup_failure (store (mkRequest endpoint query variables)) = Some e.
Proof.
  split; [intros; apply executeGraphQLQuery_trace|].
  unfold executeGraphQLQuery, fetch, response_json, lookup_failure.
  destruct (store _) as [reason|r]; simpl.
  - split; [discriminate|]. intros e H. inversion H. reflexivity.
  - destruct (ok r); simpl.
    + destruct (json r) as [|[d|]]; simpl; split; try discriminate;
        intros e H; inversion H; reflexivity.
    + split; discriminate.
Qed.

(** ** The two steps of [fetchAttestations] *)

Section Steps.

Variable dec : Decoder.
Variable store : Store.
Variable chainId : Z.
Variables endpoint attestationId : string.

Hypothesis Hendpoint : truthy (getEndpoint chainId) = Some endpoint.

Lemma Draft1_steps :
  Draft1.fetchAttestations dec store chainId attestationId
  = (main <- Draft1.fetchMainAttestations dec store endpoint attestationId ;;
     la <- Draft1.fetchLocationData store endpoint (main_locationUID main) ;;
     ret {| res_attestations := main_attestations main; locationAttestation := la |}).
Proof. unfold Draft1.fetchAttestations. now rewrite Hendpoint. Qed.

Lemma Draft2_steps :
  Draft2.fetchAttestations dec store chainId attestationId
  = (main <- Draft2.fetchMainAttestations dec store endpoint attestationId ;;
     la <- Draft1.fetchLocationData store endpoint (main_locationUID main) ;;
     ret {| res_attestations := main_attestations main; locationAttestation := la |}).
Proof. unfold Draft2.fetchAttestations. now rewrite Hendpoint. Qed.

(** After a successful first step, the call ends as the lookup ends. *)
Lemma steps_after_main (m : IO MainAttestations) (main : MainAttestations) (t : Trace) :
  m = (Ok main, t) ->
  (main' <- m ;;
   la <- Draft1.fetchLocationData store endpoint (main_locationUID main') ;;
   ret {| res_attestations := main_attestations main'; locationAttestation := la |})
  = (match result (Draft1.fetchLocationData store endpoint (main_locationUID main)) with
     | Ok la => Ok {| res_attestations := main_attestations main;
                      locationAttestation := la |}
     | Thrown e => Thrown e
     end,
     t ++ trace (Draft1.fetchLocationData store endpoint (main_locationUID main))).
Proof.
  intros ->. simpl.
  destruct (Draft1.fetchLocationData store endpoint (main_locationUID main))
    as [[la|e] t2]; simpl; [now rewrite app_nil_r | reflexivity].
Qed.

Lemma steps_main_thrown (m : IO MainAttestations) (e : Err) (t : Trace) :
  m = (Thrown e, t) ->
  (main' <- m ;;
   la <- Draft1.fetchLocationData store endpoint (main_locationUID main') ;;
   ret {| res_attestations := main_attestations main'; locationAttestation := la |})
  = (Thrown e, t).
Proof. intros ->. reflexivity. Qed.

Variable r : HttpResponse.
Variable d : GraphQLData.

Hypothesis Hstore : store (mkRequest endpoint GetAttestation attestationId) = Resolves r.
Hypothesis Hok : ok r = true.
Hypothesis Hjson : json r = JsonBody (Some d).

(** The first step of draft 1 on a successful answer, value and calls. *)
Lemma Draft1_main_on_data :
  Draft1.fetchMainAttestations dec store endpoint attestationId
  = (match referencing d with
     | [] => Thrown (NoAttestationsFound attestationId)
     | refs => Ok {| main_attestations := map convertRawAttestationToData refs;
                     main_locationUID := draft1_locationUID dec d |}
     end,
     EvFetch (mkRequest endpoint GetAttestation attestationId) :: draft1_decodes d).
Proof.
  unfold Draft1.fetchMainAttestations.
  rewrite (fetchInitialAttestations_ok _ _ _ _ _ Hstore Hok Hjson).
  unfold referencing, draft1_locationUID, draft1_decodes, Draft1.decode, tryCatch. simpl.
  destruct (attestation d) as [root|];
    [destruct (dec (decodedDataJson root)) as [payload|e]|];
    destruct (attestations d) as [[|x refs]|]; reflexivity.
Qed.

(** The first step of draft 2 on a successful answer, value and calls. *)
Lemma Draft2_main_on_data :
  Draft2.fetchMainAttestations dec store endpoint attestationId
  = (match draft2_locationUID dec d with
     | Thrown e => Thrown e
     | Ok uid' =>
         match referencing d with
         | [] => Thrown (NoAttestationsReferencing attestationId)
         | refs => Ok {| main_attestations := map convertRawAttestationToData refs;
                         main_locationUID := uid' |}
         end
     end,
     EvFetch (mkRequest endpoint GetAttestation attestationId) :: draft2_decodes d).
Proof.
  unfold Draft2.fetchMainAttestations, Draft2.extractLocationUID.
  rewrite (fetchInitialAttestations_ok _ _ _ _ _ Hstore Hok Hjson).
  unfold referencing, draft2_locationUID, draft2_decodes, Draft2.decode, tryCatch. simpl.
  destruct (attestation d) as [root|]; [|reflexivity].
  destruct (truthy (decodedDataJson root)); [|reflexivity].
  destruct (dec (decodedDataJson root)) as [payload|e]; [|reflexivity].
  destruct (attestations d) as [[|x refs]|]; reflexivity.
Qed.

End Steps.

Lemma truthy_getEndpoint (chainId : Z) : truthy (getEndpoint chainId) = getEndpoint chainId.
Proof.
  unfold getEndpoint.
  destruct (chainId =? 1); [reflexivity|].
  destruct (chainId =? 10); [reflexivity|].
  destruct (chainId =? 11155111); reflexivity.
Qed.

(** The lookup step, value and calls, by case on the store's answer. *)
Lemma fetchLocationData_closed (store : Store) (endpoint : string) (v : option string) :
  Draft1.fetchLocationData store endpoint v
  = match truthy v with
    | None => (Ok None, [])
    | Some u =>
        let answer := store (mkRequest endpoint GetLocationAttestation u) in
        (match lookup_failure answer with
         | Some e => Thrown e
         | None => Ok (option_map convertRawAttestationToData (lookup_record answer))
         end,
         [EvFetch (mkRequest endpoint GetLocationAttestation u)])
    end.
Proof.
  unfold Draft1.fetchLocationData, fetchLocationAttestation, executeGraphQLQuery,
    fetch, response_json, lookup_failure, lookup_record.
  destruct (truthy v) as [u|]; [|reflexivity].
  destruct (store _) as [reason|r]; simpl; [reflexivity|].
  destruct (ok r); simpl; [|reflexivity].
  destruct (json r) as [|[d|]]; simpl; try reflexivity.
  destruct (attestation d); reflexivity.
Qed.

Lemma initial_failure_None (o : FetchOutcome) :
  initial_failure o = None ->
  exists r d, o = Resolves r /\ ok r = true /\ json r = JsonBody (Some d).
Proof.
  unfold initial_failure. destruct o as [reason|r]; [discriminate|].
  destruct (ok r) eqn:Hok; [|discriminate].
  destruct (json r) as [|[d|]] eqn:Hj; try discriminate.
  intros _. exists r, d. auto.
Qed.

(** ** A failed mandatory query *)

(** X1: when the combined query fails (the fetch is rejected, the status is
    not a success, the body cannot be read, or it has no [data]),
    [fetchAttestations] of either draft throws that very error after this
    one request: the decoder is not called and no lookup is sent. *)
Theorem mandatory_query_failure_aborts
    (dec : Decoder) (store : Store) (chainId : Z) (endpoint attestationId : string)
    (e : Err) :
  truthy (getEndpoint chainId) = Some endpoint ->
  initial_failure (store (mkRequest endpoint GetAttestation attestationId)) = Some e ->
  Draft1.fetchAttestations dec store chainId attestationId
    = (Thrown e, [EvFetch (mkRequest endpoint GetAttestation attestationId)])
  /\ Draft2.fetchAttestations dec store chainId attestationId
    = (Thrown e, [EvFetch (mkRequest endpoint GetAttestation attestationId)]).
Proof.
  intros Hep Hfail.
  unfold Draft1.fetchAttestations, Draft2.fetchAttestations,
    Draft1.fetchMainAttestations, Draft2.fetchMainAttestations.
  rewrite Hep, (fetchInitialAttestations_thrown _ _ _ _ Hfail). auto.
Qed.

Lemma mandatory_query_failure_aborts_witness :
  let store := Scenario.store_of
                 (Resolves {| ok := false; status := 503; json := JsonRejects |})
                 Scenario.found_loc in
  Draft1.fetchAttestations Scenario.decoder store 10 "0xAAA"
    = (Thrown (GraphQLError 503),
       [EvFetch (mkRequest "https://optimism.easscan.org/graphql" GetAttestation "0xAAA")])
  /\ Draft2.fetchAttestations Scenario.decoder store 10 "0xAAA"
    = (Thrown (GraphQLError 503),
       [EvFetch (mkRequest "https://optimism.easscan.org/graphql" GetAttestation "0xAAA")]).
Proof.
  intros store.
  exact (mandatory_query_failure_aborts Scenario.decoder store 10
           "https://optimism.easscan.org/graphql" "0xAAA" (GraphQLError 503)
           eq_refl eq_refl).
Defined.

(** ** The calls of a run *)

Section Calls.

Variable dec : Decoder.
Variable store : Store.
Variable chainId : Z.
Variables endpoint attestationId : string.

Hypothesis Hendpoint : truthy (getEndpoint chainId) = Some endpoint.

Let request := mkRequest endpoint GetAttestation attestationId.

Lemma draft1_decodes_short (d : GraphQLData) :
  fetches (draft1_decodes d) = [] /\ (length (draft1_decodes d) <= 1)%nat.
Proof. unfold draft1_decodes. destruct (attestation d); simpl; auto. Qed.

Lemma draft2_decodes_short (d : GraphQLData) :
  fetches (draft2_decodes d) = [] /\ (length (draft2_decodes d) <= 1)%nat.
Proof.
  unfold draft2_decodes. destruct (attestation d) as [root|]; simpl; auto.
  destruct (truthy (decodedDataJson root)); simpl; auto.
Qed.

Lemma Draft1_main_calls :
  first_step_calls endpoint attestationId (trace (Draft1.fetchMainAttestations dec store endpoint attestationId)).
Proof.
  destruct (initial_failure (store request)) as [e|] eqn:Hfail.
  - unfold Draft1.fetchMainAttestations.
    rewrite (fetchInitialAttestations_thrown _ _ _ _ Hfail). simpl.
    exists []. simpl. auto.
  - apply initial_failure_None in Hfail. destruct Hfail as (r & d & Hs & Hok & Hj).
    rewrite (Draft1_main_on_data dec store endpoint attestationId r d Hs Hok Hj). simpl.
    exists (draft1_decodes d). split; [reflexivity | apply draft1_decodes_short].
Qed.

Lemma Draft2_main_calls :
  first_step_calls endpoint attestationId (trace (Draft2.fetchMainAttestations dec store endpoint attestationId)).
Proof.
  destruct (initial_failure (store request)) as [e|] eqn:Hfail.
  - unfold Draft2.fetchMainAttestations.
    rewrite (fetchInitialAttestations_thrown _ _ _ _ Hfail). simpl.
    exists []. simpl. auto.
  - apply initial_failure_None in Hfail. destruct Hfail as (r & d & Hs & Hok & Hj).
    rewrite (Draft2_main_on_data dec store endpoint attestationId r d Hs Hok Hj). simpl.
    exists (draft2_decodes d). split; [reflexivity | apply draft2_decodes_short].
Qed.

Lemma steps_calls (m : IO MainAttestations) :
  first_step_calls endpoint attestationId (trace m) ->
  run_calls endpoint attestationId
    (trace (main <- m ;;
            la <- Draft1.fetchLocationData store endpoint (main_locationUID main) ;;
            ret {| res_attestations := main_attestations main;
                   locationAttestation := la |})).
Proof.
  intros (decoded & Ht & Hf & Hl).
  rewrite trace_bind, Ht.
  exists decoded.
  destruct (result m) as [main|e].
  - rewrite trace_bind.
    exists (trace (Draft1.fetchLocationData store endpoint (main_locationUID main))).
    split.
    { simpl. f_equal. f_equal.
      destruct (result (Draft1.fetchLocationData _ _ _)); simpl; now rewrite app_nil_r. }
    repeat split; auto.
    rewrite fetchLocationData_trace.
    destruct (truthy (main_locationUID main)) as [u|] eqn:Hu; [right | left; reflexivity].
    exists u. split; [|reflexivity].
    destruct (main_locationUID main) as [s|]; simpl in Hu; [|discriminate].
    destruct (String.eqb_spec s EmptyString); [discriminate|]. congruence.
  - exists []. repeat split; auto.
Qed.

End Calls.

(** X2: a run of [fetchAttestations] on an unsupported chain calls
    nothing.  On a supported chain, whatever the store answers and however
    the run ends, it first sends the combined request for [attestationId]
    to the endpoint of the chain, then calls the decoder at most once, then
    sends at most one lookup request, to the same endpoint and for a
    non-empty uid; it sends nothing else (no retry, no third request). *)
Theorem at_most_two_requests
    (dec : Decoder) (store : Store) (chainId : Z) (attestationId : string) :
  match getEndpoint chainId with
  | None =>
      trace (Draft1.fetchAttestations dec store chainId attestationId) = []
      /\ trace (Draft2.fetchAttestations dec store chainId attestationId) = []
  | Some endpoint =>
      run_calls endpoint attestationId
        (trace (Draft1.fetchAttestations dec store chainId attestationId))
      /\ run_calls endpoint attestationId
           (trace (Draft2.fetchAttestations dec store chainId attestationId))
  end.
Proof.
  destruct (getEndpoint chainId) as [endpoint|] eqn:Hep.
  - assert (truthy (getEndpoint chainId) = Some endpoint) as Ht
      by (rewrite truthy_getEndpoint; exact Hep).
    split.
    + rewrite (Draft1_steps dec store chainId endpoint attestationId Ht).
      apply steps_calls, Draft1_main_calls.
    + rewrite (Draft2_steps dec store chainId endpoint attestationId Ht).
      apply steps_calls, Draft2_main_calls.
  - unfold Draft1.fetchAttestations, Draft2.fetchAttestations. rewrite Hep. simpl. auto.
Qed.

(** ** Whole runs on a successful answer to the combined query *)

Lemma lookup_record_no_failure (o : FetchOutcome) (la : RawAttestation) :
  lookup_record o = Some la -> lookup_failure o = None.
Proof.
  unfold lookup_record, lookup_failure. destruct o as [reason|r]; [discriminate|].
  destruct (ok r); [|discriminate].
  destruct (json r); [discriminate | reflexivity].
Qed.

Section Runs.

Variable dec : Decoder.
Variable store : Store.
Variable chainId : Z.
Variables endpoint attestationId : string.
Variable r : HttpResponse.
Variable d : GraphQLData.

Hypothesis Hendpoint : truthy (getEndpoint chainId) = Some endpoint.
Hypothesis Hstore : store (mkRequest endpoint GetAttestation attestationId) = Resolves r.
Hypothesis Hok : ok r = true.
Hypothesis Hjson : json r = JsonBody (Some d).

Local Abbreviation request := (mkRequest endpoint GetAttestation attestationId).

(** A run of draft 1, value and calls. *)
Lemma Draft1_run :
  Draft1.fetchAttestations dec store chainId attestationId
  = match referencing d with
    | [] => (Thrown (NoAttestationsFound attestationId),
             EvFetch request :: draft1_decodes d)
    | refs =>
        let lookup := Draft1.fetchLocationData store endpoint (draft1_locationUID dec d) in
        (match result lookup with
         | Ok la => Ok {| res_attestations := map convertRawAttestationToData refs;
                          locationAttestation := la |}
         | Thrown e => Thrown e
         end,
         (EvFetch request :: draft1_decodes d) ++ trace lookup)
    end.
Proof.
  rewrite (Draft1_steps dec store chainId endpoint attestationId Hendpoint).
  pose proof (Draft1_main_on_data dec store endpoint attestationId r d Hstore Hok Hjson)
    as Hmain.
  destruct (referencing d) as [|x refs].
  - now rewrite (steps_main_thrown store endpoint _ _ _ Hmain).
  - now rewrite (steps_after_main store endpoint _ _ _ Hmain).
Qed.

(** A run of draft 2, value and calls. *)
Lemma Draft2_run :
  Draft2.fetchAttestations dec store chainId attestationId
  = match draft2_locationUID dec d with
    | Thrown e => (Thrown e, EvFetch request :: draft2_decodes d)
    | Ok uid' =>
        match referencing d with
        | [] => (Thrown (NoAttestationsReferencing attestationId),
                 EvFetch request :: draft2_decodes d)
        | refs =>
            let lookup := Draft1.fetchLocationData store endpoint uid' in
            (match result lookup with
             | Ok la => Ok {| res_attestations := map convertRawAttestationToData refs;
                              locationAttestation := la |}
             | Thrown e => Thrown e
             end,
             (EvFetch request :: draft2_decodes d) ++ trace lookup)
        end
    end.
Proof.
  rewrite (Draft2_steps dec store chainId endpoint attestationId Hendpoint).
  pose proof (Draft2_main_on_data dec store endpoint attestationId r d Hstore Hok Hjson)
    as Hmain.
  destruct (draft2_locationUID dec d) as [uid'|e].
  - destruct (referencing d) as [|x refs].
    + now rewrite (steps_main_thrown store endpoint _ _ _ Hmain).
    + now rewrite (steps_after_main store endpoint _ _ _ Hmain).
  - now rewrite (steps_main_thrown store endpoint _ _ _ Hmain).
Qed.

Lemma decodes_cons_fetch (q : Request) (t : Trace) : decodes (EvFetch q :: t) = decodes t.
Proof. reflexivity. Qed.

Lemma decodes_draft1_decodes : decodes (draft1_decodes d) = draft1_decodes d.
Proof. unfold draft1_decodes. destruct (attestation d); reflexivity. Qed.

Lemma decodes_draft2_decodes : decodes (draft2_decodes d) = draft2_decodes d.
Proof.
  unfold draft2_decodes. destruct (attestation d) as [root|]; [|reflexivity].
  destruct (truthy (decodedDataJson root)); reflexivity.
Qed.

(** X5: on a successful answer to the combined query, draft 1 calls the
    decoder exactly once when the answer holds the root, on the root's
    [decodedDataJson] even if that is null or empty, and not at all when the
    root is missing; draft 2 calls it exactly once when the root is there
    with a non-empty [decodedDataJson], and not at all otherwise.  Neither
    draft decodes anything else, however the run ends. *)
Theorem decoder_calls_of_a_run :
  decodes (trace (Draft1.fetchAttestations dec store chainId attestationId))
    = match attestation d with
      | Some root => [EvDecode (decodedDataJson root)]
      | None => []
      end
  /\ decodes (trace (Draft2.fetchAttestations dec store chainId attestationId))
    = match attestation d with
      | Some root =>
          match truthy (decodedDataJson root) with
          | Some _ => [EvDecode (decodedDataJson root)]
          | None => []
          end
      | None => []
      end.
Proof.
  fold (draft1_decodes d). fold (draft2_decodes d).
  rewrite Draft1_run, Draft2_run. split.
  - destruct (referencing d); simpl.
    + apply decodes_draft1_decodes.
    + rewrite decodes_app, decodes_fetchLocationData, app_nil_r.
      apply decodes_draft1_decodes.
  - destruct (draft2_locationUID dec d) as [uid'|e];
      [destruct (referencing d)|]; simpl; try apply decodes_draft2_decodes.
    rewrite decodes_app, decodes_fetchLocationData, app_nil_r.
    apply decodes_draft2_decodes.
Qed.

(** X3: when the answer holds the root with a non-empty payload that
    decodes to a non-empty [locationUID], at least one referencing
    attestation, and the lookup of that [locationUID] finds a record, both
    drafts return the normalized referencing attestations together with the
    normalized record, after exactly three calls: the combined request, the
    decoder on the root's payload, the lookup request. *)
Theorem resolve_with_boundary
    (root : RawAttestation) (payload : DecodedPayload) (u : string) (la : RawAttestation) :
  attestation d = Some root ->
  truthy (decodedDataJson root) <> None ->
  dec (decodedDataJson root) = Ok payload ->
  truthy (locationUID payload) = Some u ->
  referencing d <> [] ->
  lookup_record (store (mkRequest endpoint GetLocationAttestation u)) = Some la ->
  let expected :=
    (Ok {| res_attestations := map convertRawAttestationToData (referencing d);
           locationAttestation := Some (convertRawAttestationToData la) |},
     [EvFetch request; EvDecode (decodedDataJson root);
      EvFetch (mkRequest endpoint GetLocationAttestation u)]) in
  Draft1.fetchAttestations dec store chainId attestationId = expected
  /\ Draft2.fetchAttestations dec store chainId attestationId = expected.
Proof.
  intros Hroot Hpay Hdec Hu Hrefs Hla expected. subst expected.
  pose proof (lookup_record_no_failure _ _ Hla) as Hnf.
  rewrite Draft1_run, Draft2_run.
  unfold draft2_locationUID, draft1_locationUID, draft1_decodes, draft2_decodes.
  rewrite Hroot, Hdec.
  destruct (truthy (decodedDataJson root)) as [s|]; [|contradiction].
  destruct (referencing d) as [|x refs]; [contradiction|].
  cbv zeta. rewrite !fetchLocationData_closed, truthy_idem, Hu.
  cbv zeta. rewrite Hnf, Hla. split; reflexivity.
Qed.

(** X7: when the root's payload is non-empty and decodes, but the decoded
    payload has no (non-empty) [locationUID], and at least one attestation
    references the root, neither draft throws: both return the normalized
    referencing attestations with [locationAttestation = null], after the
    combined request and the decoder call, without sending a lookup. *)
Theorem resolve_without_locationUID
    (root : RawAttestation) (payload : DecodedPayload) :
  attestation d = Some root ->
  truthy (decodedDataJson root) <> None ->
  dec (decodedDataJson root) = Ok payload ->
  truthy (locationUID payload) = None ->
  referencing d <> [] ->
  let expected :=
    (Ok {| res_attestations := map convertRawAttestationToData (referencing d);
           locationAttestation := None |},
     [EvFetch request; EvDecode (decodedDataJson root)]) in
  Draft1.fetchAttestations dec store chainId attestationId = expected
  /\ Draft2.fetchAttestations dec store chainId attestationId = expected.
Proof.
  intros Hroot Hpay Hdec Hu Hrefs expected. subst expected.
  rewrite Draft1_run, Draft2_run.
  unfold draft2_locationUID, draft1_locationUID, draft1_decodes, draft2_decodes.
  rewrite Hroot, Hdec.
  destruct (truthy (decodedDataJson root)) as [s|]; [|contradiction].
  destruct (referencing d) as [|x refs]; [contradiction|].
  cbv zeta. rewrite !fetchLocationData_closed, truthy_idem, Hu.
  split; reflexivity.
Qed.

(** X16: draft 1 does not need the root.  When the answer has no root but
    at least one referencing attestation, draft 1 returns the normalized
    referencing attestations with [locationAttestation = null] after the
    combined request alone: no decoder call, no lookup. *)
Theorem draft1_tolerates_missing_root :
  attestation d = None ->
  referencing d <> [] ->
  Draft1.fetchAttestations dec store chainId attestationId
  = (Ok {| res_attestations := map convertRawAttestationToData (referencing d);
           locationAttestation := None |},
     [EvFetch request]).
Proof.
  intros Hroot Hrefs.
  rewrite Draft1_run. unfold draft1_locationUID, draft1_decodes. rewrite Hroot.
  destruct (referencing d) as [|x refs]; [contradiction|]. reflexivity.
Qed.

End Runs.

Lemma decoder_calls_of_a_run_witness :
  let store := Scenario.store_of
        (Scenario.ok_response
           (mkData (Some (mkRaw "0xAAA" "0xSCHEMA" None None)) (Some [Scenario.bbb])))
        Scenario.found_loc in
  decodes (trace (Draft1.fetchAttestations Scenario.decoder store 1 "0xAAA"))
    = [EvDecode None]
  /\ decodes (trace (Draft2.fetchAttestations Scenario.decoder store 1 "0xAAA")) = [].
Proof.
  intros store.
  exact (decoder_calls_of_a_run Scenario.decoder store 1 Scenario.endpoint "0xAAA"
           {| ok := true; status := 200;
              json := JsonBody (Some (mkData (Some (mkRaw "0xAAA" "0xSCHEMA" None None))
                                             (Some [Scenario.bbb]))) |}
           (mkData (Some (mkRaw "0xAAA" "0xSCHEMA" None None)) (Some [Scenario.bbb]))
           eq_refl eq_refl eq_refl eq_refl).
Defined.

Lemma resolve_with_boundary_witness :
  let expected :=
    (Ok {| res_attestations := map convertRawAttestationToData [Scenario.bbb; Scenario.ccc];
           locationAttestation := Some (convertRawAttestationToData Scenario.loc) |},
     [EvFetch (mkRequest Scenario.endpoint GetAttestation "0xAAA");
      EvDecode (Some "locationUID=0xLOC");
      EvFetch (mkRequest Scenario.endpoint GetLocationAttestation "0xLOC")]) in
  Draft1.fetchAttestations Scenario.decoder Scenario.store 1 "0xAAA" = expected
  /\ Draft2.fetchAttestations Scenario.decoder Scenario.store 1 "0xAAA" = expected.
Proof.
  refine (resolve_with_boundary Scenario.decoder Scenario.store 1 Scenario.endpoint "0xAAA"
            {| ok := true; status := 200;
               json := JsonBody (Some (mkData (Some Scenario.root)
                                              (Some [Scenario.bbb; Scenario.ccc]))) |}
            (mkData (Some Scenario.root) (Some [Scenario.bbb; Scenario.ccc]))
            eq_refl eq_refl eq_refl eq_refl
            Scenario.root {| locationUID := Some "0xLOC" |} "0xLOC" Scenario.loc
            eq_refl _ eq_refl eq_refl _ eq_refl); discriminate.
Defined.

Lemma resolve_without_locationUID_witness :
  let store := Scenario.store_of
        (Scenario.ok_response
           (mkData (Some Scenario.root_empty_payload) (Some [Scenario.bbb; Scenario.ccc])))
        Scenario.found_loc in
  let expected :=
    (Ok {| res_attestations := map convertRawAttestationToData [Scenario.bbb; Scenario.ccc];
           locationAttestation := None |},
     [EvFetch (mkRequest Scenario.endpoint GetAttestation "0xAAA");
      EvDecode (Some "{}")]) in
  Draft1.fetchAttestations Scenario.decoder store 1 "0xAAA" = expected
  /\ Draft2.fetchAttestations Scenario.decoder store 1 "0xAAA" = expected.
Proof.
  intros store.
  refine (resolve_without_locationUID Scenario.decoder store 1 Scenario.endpoint "0xAAA"
            {| ok := true; status := 200;
               json := JsonBody (Some (mkData (Some Scenario.root_empty_payload)
                                              (Some [Scenario.bbb; Scenario.ccc]))) |}
            (mkData (Some Scenario.root_empty_payload) (Some [Scenario.bbb; Scenario.ccc]))
            eq_refl eq_refl eq_refl eq_refl
            Scenario.root_empty_payload {| locationUID := None |}
            eq_refl _ eq_refl eq_refl _); discriminate.
Defined.

Lemma draft1_tolerates_missing_root_witness :
  Draft1.fetchAttestations Scenario.decoder
    (Scenario.store_of (Scenario.ok_response (mkData None (Some [Scenario.ccc])))
                       Scenario.found_loc) 11155111 "0xAAA"
  = (Ok {| res_attestations := [convertRawAttestationToData Scenario.ccc];
           locationAttestation := None |},
     [EvFetch (mkRequest "https://sepolia.easscan.org/graphql" GetAttestation "0xAAA")]).
Proof.
  refine (draft1_tolerates_missing_root Scenario.decoder _ 11155111
            "https://sepolia.easscan.org/graphql" "0xAAA"
            {| ok := true; status := 200;
               json := JsonBody (Some (mkData None (Some [Scenario.ccc]))) |}
            (mkData None (Some [Scenario.ccc]))
            eq_refl eq_refl eq_refl eq_refl eq_refl _); discriminate.
Defined.

(** ** The lookup step *)

(** X4: the lenient lookup is not lenient about everything.  When the first
    step has succeeded with a non-empty [locationUID] and the lookup's
    [fetch] is rejected, or its answer has a success status and a body that
    cannot be read, [fetchAttestations] of either draft throws that error
    (the referencing attestations already fetched are not returned). *)
Theorem boundary_lookup_failure_propagates
    (dec : Decoder) (store : Store) (chainId : Z) (attestationId endpoint u : string)
    (main : MainAttestations) (t : Trace) (e : Err) :
  truthy (getEndpoint chainId) = Some endpoint ->
  truthy (main_locationUID main) = Some u ->
  lookup_failure (store (mkRequest endpoint GetLocationAttestation u)) = Some e ->
  (Draft1.fetchMainAttestations dec store endpoint attestationId = (Ok main, t) ->
   Draft1.fetchAttestations dec store chainId attestationId
   = (Thrown e, t ++ [EvFetch (mkRequest endpoint GetLocationAttestation u)]))
  /\ (Draft2.fetchMainAttestations dec store endpoint attestationId = (Ok main, t) ->
      Draft2.fetchAttestations dec store chainId attestationId
      = (Thrown e, t ++ [EvFetch (mkRequest endpoint GetLocationAttestation u)])).
Proof.
  intros Hep Hu Hfail.
  split; intros Hmain.
  - rewrite (Draft1_steps dec store chainId endpoint attestationId Hep).
    rewrite (steps_after_main store endpoint _ _ _ Hmain).
    rewrite fetchLocationData_closed, Hu. cbv zeta. now rewrite Hfail.
  - rewrite (Draft2_steps dec store chainId endpoint attestationId Hep).
    rewrite (steps_after_main store endpoint _ _ _ Hmain).
    rewrite fetchLocationData_closed, Hu. cbv zeta. now rewrite Hfail.
Qed.

Lemma boundary_lookup_failure_propagates_witness :
  let store := Scenario.store_of
                 (Scenario.ok_response (mkData (Some Scenario.root) (Some [Scenario.bbb])))
                 (Rejects "connection reset") in
  let t := [EvFetch (mkRequest Scenario.endpoint GetAttestation "0xAAA");
            EvDecode (Some "locationUID=0xLOC")] in
  Draft1.fetchAttestations Scenario.decoder store 1 "0xAAA"
  = (Thrown (FetchRejected "connection reset"),
     t ++ [EvFetch (mkRequest Scenario.endpoint GetLocationAttestation "0xLOC")])
  /\ Draft2.fetchAttestations Scenario.decoder store 1 "0xAAA"
  = (Thrown (FetchRejected "connection reset"),
     t ++ [EvFetch (mkRequest Scenario.endpoint GetLocationAttestation "0xLOC")]).
Proof.
  intros store t.
  destruct (boundary_lookup_failure_propagates Scenario.decoder store 1 "0xAAA"
              Scenario.endpoint "0xLOC"
              {| main_attestations := [convertRawAttestationToData Scenario.bbb];
                 main_locationUID := Some "0xLOC" |}
              t (FetchRejected "connection reset")
              eq_refl eq_refl eq_refl) as [H1 H2].
  split; [apply H1 | apply H2]; reflexivity.
Defined.

(** ** [extractLocationUID] of draft 2 *)

(** X6: when [extractLocationUID] returns, the root is present, its
    [decodedDataJson] is a non-empty string, the decoder has been called
    once on it and has succeeded, and the value returned is the decoded
    [locationUID] if that is a non-empty string and null otherwise: the
    function never returns an empty string. *)
Theorem extractLocationUID_returns
    (dec : Decoder) (d : GraphQLData) (v : option string) (t : Trace) :
  Draft2.extractLocationUID dec d = (Ok v, t) ->
  truthy v = v
  /\ exists root payload,
       attestation d = Some root
       /\ truthy (decodedDataJson root) <> None
       /\ dec (decodedDataJson root) = Ok payload
       /\ v = truthy (locationUID payload)
       /\ t = [EvDecode (decodedDataJson root)].
Proof.
  unfold Draft2.extractLocationUID, Draft2.decode, tryCatch.
  destruct (attestation d) as [root|]; [|discriminate].
  destruct (truthy (decodedDataJson root)) as [s|] eqn:Hs; [|discriminate].
  destruct (dec (decodedDataJson root)) as [payload|e] eqn:Hdec; simpl; [|discriminate].
  intros H; inversion H; subst. split; [apply truthy_idem|].
  exists root, payload.
  split; [reflexivity|]. split; [rewrite Hs; discriminate|]. auto.
Qed.

Lemma extractLocationUID_returns_witness :
  truthy (Some "0xLOC") = Some "0xLOC"
  /\ exists root payload,
       attestation (mkData (Some Scenario.root) None) = Some root
       /\ truthy (decodedDataJson root) <> None
       /\ Scenario.decoder (decodedDataJson root) = Ok payload
       /\ Some "0xLOC" = truthy (locationUID payload)
       /\ [EvDecode (Some "locationUID=0xLOC")] = [EvDecode (decodedDataJson root)].
Proof.
  exact (extractLocationUID_returns Scenario.decoder (mkData (Some Scenario.root) None)
           (Some "0xLOC") [EvDecode (Some "locationUID=0xLOC")] eq_refl).
Defined.

(** ** What a successful run tells *)

(** A run that returns has had a successful answer to the combined query. *)
Lemma run_ok_data (dec : Decoder) (store : Store) (chainId : Z) (attestationId : string)
    (res : Resolved) :
  result (Draft1.fetchAttestations dec store chainId attestationId) = Ok res
  \/ result (Draft2.fetchAttestations dec store chainId attestationId) = Ok res ->
  exists endpoint r d,
    truthy (getEndpoint chainId) = Some endpoint
    /\ store (mkRequest endpoint GetAttestation attestationId) = Resolves r
    /\ ok r = true /\ json r = JsonBody (Some d).
Proof.
  intros H.
  destruct (truthy (getEndpoint chainId)) as [endpoint|] eqn:Hep.
  - destruct (initial_failure (store (mkRequest endpoint GetAttestation attestationId)))
      as [e|] eqn:Hfail.
    + destruct (drafts_on_initial_failure dec store chainId endpoint attestationId e
                  Hep Hfail) as [H1 H2].
      rewrite H1, H2 in H. destruct H; discriminate.
    + apply initial_failure_None in Hfail. destruct Hfail as (r & d & Hs & Hok & Hj).
      exists endpoint, r, d. auto.
  - unfold Draft1.fetchAttestations, Draft2.fetchAttestations in H. rewrite Hep in H.
    destruct H; discriminate.
Qed.

(** X8: draft 2 is the stricter draft.  Whenever [fetchAttestations] of
    draft 2 returns a result, [fetchAttestations] of draft 1 returns the
    same result, after the same calls, on the same input. *)
Theorem draft2_success_is_draft1_success
    (dec : Decoder) (store : Store) (chainId : Z) (attestationId : string)
    (res : Resolved) (t : Trace) :
  Draft2.fetchAttestations dec store chainId attestationId = (Ok res, t) ->
  Draft1.fetchAttestations dec store chainId attestationId = (Ok res, t).
Proof.
  intros H.
  destruct (run_ok_data dec store chainId attestationId res
              (or_intror (f_equal fst H))) as (endpoint & r & d & Hep & Hs & Hok & Hj).
  rewrite (Draft2_run dec store chainId endpoint attestationId r d Hep Hs Hok Hj) in H.
  rewrite (Draft1_run dec store chainId endpoint attestationId r d Hep Hs Hok Hj).
  unfold draft2_locationUID, draft2_decodes in H.
  unfold draft1_locationUID, draft1_decodes.
  destruct (attestation d) as [root|]; [|discriminate].
  destruct (truthy (decodedDataJson root)); [|discriminate].
  destruct (dec (decodedDataJson root)) as [payload|e]; [|discriminate].
  destruct (referencing d); [discriminate|].
  cbv zeta in *. rewrite fetchLocationData_truthy in H. exact H.
Qed.

Lemma draft2_success_is_draft1_success_witness :
  Draft1.fetchAttestations Scenario.decoder Scenario.store 1 "0xAAA"
  = (Ok {| res_attestations := map convertRawAttestationToData [Scenario.bbb; Scenario.ccc];
           locationAttestation := Some (convertRawAttestationToData Scenario.loc) |},
     [EvFetch (mkRequest Scenario.endpoint GetAttestation "0xAAA");
      EvDecode (Some "locationUID=0xLOC");
      EvFetch (mkRequest Scenario.endpoint GetLocationAttestation "0xLOC")]).
Proof.
  exact (draft2_success_is_draft1_success Scenario.decoder Scenario.store 1 "0xAAA" _ _
           eq_refl).
Defined.

(** X9: a boundary is never made up.  When [fetchAttestations] of either
    draft returns a non-null [locationAttestation], the answer to the
    combined query held the root, the root's payload decoded to a non-empty
    [locationUID], and the boundary is the normalized record that the store
    returned for the lookup of that [locationUID] at the same endpoint (its
    identifier is not compared with the [locationUID] asked for). *)
Theorem boundary_comes_from_the_lookup
    (dec : Decoder) (store : Store) (chainId : Z) (attestationId : string)
    (res : Resolved) (boundary : AttestationData) :
  result (Draft1.fetchAttestations dec store chainId attestationId) = Ok res
  \/ result (Draft2.fetchAttestations dec store chainId attestationId) = Ok res ->
  locationAttestation res = Some boundary ->
  exists endpoint r d root payload u record,
    truthy (getEndpoint chainId) = Some endpoint
    /\ store (mkRequest endpoint GetAttestation attestationId) = Resolves r
    /\ json r = JsonBody (Some d)
    /\ attestation d = Some root
    /\ dec (decodedDataJson root) = Ok payload
    /\ truthy (locationUID payload) = Some u
    /\ lookup_record (store (mkRequest endpoint GetLocationAttestation u)) = Some record
    /\ boundary = convertRawAttestationToData record.
Proof.
  intros H Hb.
  destruct (run_ok_data dec store chainId attestationId res H)
    as (endpoint & r & d & Hep & Hs & Hok & Hj).
  rewrite (Draft1_resolve dec store chainId endpoint attestationId r d Hep Hs Hok Hj) in H.
  rewrite (Draft2_resolve dec store chainId endpoint attestationId r d Hep Hs Hok Hj) in H.
  assert (exists v root payload,
             attestation d = Some root /\ dec (decodedDataJson root) = Ok payload
             /\ truthy v = truthy (locationUID payload)
             /\ result (Draft1.fetchLocationData store endpoint v) = Ok (Some boundary))
    as (v & root & payload & Hroot & Hdec & Hv & Hlook).
  { destruct H as [H|H].
    - destruct (referencing d); [discriminate|].
      destruct (result (Draft1.fetchLocationData store endpoint (draft1_locationUID dec d)))
        as [la|e] eqn:Hl; [|discriminate].
      inversion H; subst; simpl in Hb; subst la.
      unfold draft1_locationUID in Hl.
      destruct (attestation d) as [root|]; [|discriminate].
      destruct (dec (decodedDataJson root)) as [payload|e] eqn:Hdec; [|discriminate].
      exists (locationUID payload), root, payload. auto.
    - unfold draft2_locationUID in H.
      destruct (attestation d) as [root|]; [|discriminate].
      destruct (truthy (decodedDataJson root)); [|discriminate].
      destruct (dec (decodedDataJson root)) as [payload|e] eqn:Hdec; [|discriminate].
      destruct (referencing d); [discriminate|].
      destruct (result (Draft1.fetchLocationData store endpoint
                          (truthy (locationUID payload)))) as [la|e] eqn:Hl;
        [|discriminate].
      inversion H; subst; simpl in Hb; subst la.
      exists (truthy (locationUID payload)), root, payload.
      rewrite truthy_idem. auto. }
  rewrite fetchLocationData_closed in Hlook.
  destruct (truthy v) as [u|] eqn:Hu; [|discriminate].
  cbv zeta in Hlook. simpl in Hlook.
  destruct (lookup_failure _); [discriminate|].
  destruct (lookup_record (store (mkRequest endpoint GetLocationAttestation u)))
    as [record|] eqn:Hrec; [|discriminate].
  inversion Hlook; subst.
  exists endpoint, r, d, root, payload, u, record. repeat split; auto.
Qed.

Lemma boundary_comes_from_the_lookup_witness :
  exists endpoint r d root payload u record,
    truthy (getEndpoint 1) = Some endpoint
    /\ Scenario.store (mkRequest endpoint GetAttestation "0xAAA") = Resolves r
    /\ json r = JsonBody (Some d)
    /\ attestation d = Some root
    /\ Scenario.decoder (decodedDataJson root) = Ok payload
    /\ truthy (locationUID payload) = Some u
    /\ lookup_record (Scenario.store (mkRequest endpoint GetLocationAttestation u))
       = Some record
    /\ convertRawAttestationToData Scenario.loc = convertRawAttestationToData record.
Proof.
  exact (boundary_comes_from_the_lookup Scenario.decoder Scenario.store 1 "0xAAA"
           {| res_attestations := map convertRawAttestationToData [Scenario.bbb; Scenario.ccc];
              locationAttestation := Some (convertRawAttestationToData Scenario.loc) |}
           (convertRawAttestationToData Scenario.loc)
           (or_introl eq_refl) eq_refl).
Defined.

(** ** The decoder's errors *)



(** * Further properties of the containment test *)

Section MoreContainment.

Variables LocationData Coordinates PolygonFeature PointFeature : Type.
Variable coordinates : LocationData -> Coordinates.
Variable extractLocationFromAttestation : AttestationData -> Result LocationData.
Variable polygon : Coordinates -> Result PolygonFeature.
Variable point : Coordinates -> Result PointFeature.
Variable booleanContains : PolygonFeature -> PointFeature -> bool.

Local Abbreviation validate :=
  (validateObservation coordinates extractLocationFromAttestation point booleanContains).
Local Abbreviation test :=
  (testPolygonContainment coordinates extractLocationFromAttestation polygon point
     booleanContains).
Local Abbreviation decodable_polygon :=
  (decodable_polygon coordinates extractLocationFromAttestation polygon).
Local Abbreviation decodable_point :=
  (decodable_point coordinates extractLocationFromAttestation point).

(** X10: the boundary is decoded first and its failure wins.  If
    extracting the boundary's location throws, or [polygon] throws on its
    coordinates, [testPolygonContainment] throws that error whatever the
    observations are, even when there is none. *)
Theorem boundary_failure_wins
    (attestations : list AttestationData) (locationAttestation : AttestationData)
    (e : Err) :
  extractLocationFromAttestation locationAttestation = Thrown e
  \/ (exists polygonData,
         extractLocationFromAttestation locationAttestation = Ok polygonData
         /\ polygon (coordinates polygonData) = Thrown e) ->
  test attestations locationAttestation = Thrown e
  /\ test [] locationAttestation = Thrown e.
Proof.
  unfold testPolygonContainment.
  intros [H | (pd & Hpd & Hpoly)].
  - rewrite H. auto.
  - rewrite Hpd. simpl. rewrite Hpoly. auto.
Qed.

Lemma validateObservation_ok_inv (index : nat) (a : AttestationData)
    (turfPolygon : PolygonFeature) (res : ContainmentResult LocationData) :
  validate index a turfPolygon = Ok res ->
  exists locationData turfPoint,
    extractLocationFromAttestation a = Ok locationData
    /\ point (coordinates locationData) = Ok turfPoint
    /\ res = {| attestationId := uid a;
                location := locationData;
                isContainedInPolygon := booleanContains turfPolygon turfPoint |}.
Proof.
  unfold validateObservation.
  destruct (extractLocationFromAttestation a) as [ld|e]; simpl; [|discriminate].
  destruct (point (coordinates ld)) as [pt|e] eqn:Hpt; simpl; [|discriminate].
  intros H; inversion H. exists ld, pt. auto.
Qed.

Lemma array_map_ok_Forall2 {A B} (f : A -> nat -> Result B) (xs : list A) :
  forall start ys,
    array_map f start xs = Ok ys ->
    Forall2 (fun x y => exists i, f x i = Ok y) xs ys.
Proof.
  induction xs as [|x xs IH]; intros start ys; simpl.
  - intros H; inversion H; constructor.
  - destruct (f x start) as [y|e] eqn:Hy; simpl; [|discriminate].
    destruct (array_map f (S start) xs) as [ys'|e] eqn:Hrest; simpl; [|discriminate].
    intros H; inversion H; subst. constructor; eauto.
Qed.

(** The callback of [testPolygonContainment] does not depend on the index. *)
Lemma array_map_validate_start (turfPolygon : PolygonFeature) (xs : list AttestationData) :
  forall start,
    array_map (fun a index => validate index a turfPolygon) start xs
    = array_map (fun a index => validate index a turfPolygon) 0%nat xs.
Proof.
  induction xs as [|x xs IH]; intros start; simpl; [reflexivity|].
  rewrite (IH (S start)), (IH 1%nat). reflexivity.
Qed.

Lemma array_map_validate_app (turfPolygon : PolygonFeature)
    (xs ys : list AttestationData) :
  array_map (fun a index => validate index a turfPolygon) 0%nat (xs ++ ys)
  = let* rs := array_map (fun a index => validate index a turfPolygon) 0%nat xs in
    let* ss := array_map (fun a index => validate index a turfPolygon) 0%nat ys in
    Ok (rs ++ ss).
Proof.
  induction xs as [|x xs IH]; simpl.
  - destruct (array_map _ 0%nat ys); reflexivity.
  - destruct (validate 0%nat x turfPolygon) as [y|e]; simpl; [|reflexivity].
    rewrite (array_map_validate_start turfPolygon (xs ++ ys) 1%nat), IH.
    rewrite (array_map_validate_start turfPolygon xs 1%nat).
    destruct (array_map _ 0%nat xs) as [rs|e]; simpl; [|reflexivity].
    destruct (array_map _ 0%nat ys) as [ss|e]; reflexivity.
Qed.

(** X11: what each result holds.  When [testPolygonContainment] returns,
    the boundary decoded to a polygon, and results and observations
    correspond one to one, in order: each result holds the uid of its
    observation, the location extracted from that observation, and the
    verdict of [booleanContains] for the one boundary polygon and the point
    built from that location. *)
Theorem containment_results_content
    (attestations : list AttestationData) (locationAttestation : AttestationData)
    (results : list (ContainmentResult LocationData)) :
  test attestations locationAttestation = Ok results ->
  exists polygonData turfPolygon,
    extractLocationFromAttestation locationAttestation = Ok polygonData
    /\ polygon (coordinates polygonData) = Ok turfPolygon
    /\ Forall2
         (fun observation res =>
            exists locationData turfPoint,
              extractLocationFromAttestation observation = Ok locationData
              /\ point (coordinates locationData) = Ok turfPoint
              /\ res = {| attestationId := uid observation;
                          location := locationData;
                          isContainedInPolygon :=
                            booleanContains turfPolygon turfPoint |})
         attestations results.
Proof.
  unfold testPolygonContainment.
  destruct (extractLocationFromAttestation locationAttestation) as [pd|e] eqn:Hpd;
    simpl; [|discriminate].
  destruct (polygon (coordinates pd)) as [poly|e] eqn:Hpoly; simpl; [|discriminate].
  intros H. exists pd, poly. split; [reflexivity|]. split; [exact Hpoly|].
  apply array_map_ok_Forall2 in H.
  induction H as [|a res xs ys [i Hi] _ IH]; constructor; auto.
  eapply validateObservation_ok_inv; eauto.
Qed.

(** X12: batches compose.  Evaluating the concatenation of two observation
    lists against a boundary returns exactly when evaluating each list
    against that boundary returns, and then its result is the concatenation
    of their results. *)
Theorem containment_of_concatenation
    (first second : list AttestationData) (locationAttestation : AttestationData)
    (results : list (ContainmentResult LocationData)) :
  test (first ++ second) locationAttestation = Ok results
  <-> exists rs ss,
        test first locationAttestation = Ok rs
        /\ test second locationAttestation = Ok ss
        /\ results = rs ++ ss.
Proof.
  unfold testPolygonContainment.
  destruct (extractLocationFromAttestation locationAttestation) as [pd|e]; simpl.
  2:{ split; [discriminate | intros (rs & ss & H & _); discriminate]. }
  destruct (polygon (coordinates pd)) as [poly|e]; simpl.
  2:{ split; [discriminate | intros (rs & ss & H & _); discriminate]. }
  rewrite array_map_validate_app.
  destruct (array_map _ 0%nat first) as [rs|e]; simpl.
  2:{ split; [discriminate | intros (rs & ss & H & _); discriminate]. }
  destruct (array_map _ 0%nat second) as [ss|e]; simpl.
  2:{ split; [discriminate | intros (rs' & ss' & _ & H & _); discriminate]. }
  split.
  - intros H; inversion H. exists rs, ss. auto.
  - intros (rs' & ss' & H1 & H2 & ->). inversion H1; inversion H2; reflexivity.
Qed.

Lemma array_map_validate_decodable (turfPolygon : PolygonFeature)
    (xs : list AttestationData) :
  Forall decodable_point xs ->
  exists results,
    array_map (fun a index => validate index a turfPolygon) 0%nat xs = Ok results.
Proof.
  induction 1 as [|a rest (ld & pt & Hld & Hpt) _ [rs IH]]; simpl; [eauto|].
  unfold validateObservation at 1. rewrite Hld. simpl. rewrite Hpt. simpl.
  rewrite (array_map_validate_start turfPolygon rest 1%nat), IH. simpl. eauto.
Qed.

(** X13: [testPolygonContainment] returns a list exactly when the
    boundary's payload decodes to a polygon and the payload of every
    observation decodes to a point; in every other case it throws. *)
Theorem containment_succeeds_iff_decodable
    (attestations : list AttestationData) (locationAttestation : AttestationData) :
  (exists results, test attestations locationAttestation = Ok results)
  <-> decodable_polygon locationAttestation /\ Forall decodable_point attestations.
Proof.
  split.
  - intros [results H].
    unfold testPolygonContainment in H.
    destruct (extractLocationFromAttestation locationAttestation) as [pd|e] eqn:Hpd;
      simpl in H; [|discriminate].
    destruct (polygon (coordinates pd)) as [poly|e] eqn:Hpoly; simpl in H; [|discriminate].
    split; [exists pd, poly; auto|].
    apply array_map_ok_Forall2 in H.
    induction H as [|a res xs ys [i Hi] _ IH]; constructor; auto.
    apply validateObservation_ok_inv in Hi.
    destruct Hi as (ld & pt & Hld & Hpt & _). exists ld, pt. auto.
  - intros [(pd & poly & Hpd & Hpoly) Hall].
    unfold testPolygonContainment. rewrite Hpd. simpl. rewrite Hpoly. simpl.
    apply array_map_validate_decodable. exact Hall.
Qed.

End MoreContainment.

Lemma boundary_failure_wins_witness :
  Scenario.evaluate (map convertRawAttestationToData [Scenario.ccc])
                    (convertRawAttestationToData Scenario.bbb)
    = Thrown (GeometryFailure "not a polygon")
  /\ Scenario.evaluate [] (convertRawAttestationToData Scenario.bbb)
    = Thrown (GeometryFailure "not a polygon").
Proof.
  apply (boundary_failure_wins Scenario.Geometry Scenario.Geometry (list (Z * Z)) (Z * Z)
           Scenario.coordinates Scenario.extractLocation Scenario.polygon Scenario.point
           Scenario.contains).
  right. eexists. split; reflexivity.
Defined.

Lemma containment_results_content_witness :
  exists polygonData turfPolygon,
    Scenario.extractLocation (convertRawAttestationToData Scenario.loc) = Ok polygonData
    /\ Scenario.polygon (Scenario.coordinates polygonData) = Ok turfPolygon
    /\ Forall2
         (fun observation res =>
            exists locationData turfPoint,
              Scenario.extractLocation observation = Ok locationData
              /\ Scenario.point (Scenario.coordinates locationData) = Ok turfPoint
              /\ res = {| attestationId := uid observation;
                          location := locationData;
                          isContainedInPolygon :=
                            Scenario.contains turfPolygon turfPoint |})
         (map convertRawAttestationToData [Scenario.bbb; Scenario.ccc])
         [ mkContainmentResult "0xBBB" (Scenario.PointCoordinates 5 5) true;
           mkContainmentResult "0xCCC" (Scenario.PointCoordinates 50 50) false ].
Proof.
  exact (containment_results_content Scenario.Geometry Scenario.Geometry (list (Z * Z))
           (Z * Z) Scenario.coordinates Scenario.extractLocation Scenario.polygon
           Scenario.point Scenario.contains
           (map convertRawAttestationToData [Scenario.bbb; Scenario.ccc])
           (convertRawAttestationToData Scenario.loc) _ eq_refl).
Defined.
